(** * ytdownloader: a shallow embedding of [downloader.py]

    The development follows the source file top to bottom: the Python
    values and exceptions the program manipulates, the string primitives
    it calls, then [quality_to_format], [ConsoleProgress], [normalize_url],
    the preference file and [main].  Definitions come first, the
    properties of the specification afterwards. *)

From Stdlib Require Import ZArith NArith String Ascii List Bool Lia DecimalString.
From Stdlib Require Import Floats DecimalZ.
From stdpp Require Import base option list gmap strings.

#[local] Set Warnings "-register-all".
#[local] Open Scope Z_scope.
#[local] Open Scope string_scope.

(** ** Exceptions and results

    A Python call either returns a value or raises.  An exception is
    recorded with its class and with the text [str(e)] gives. *)

Inductive exn_class :=
  | ValueError | TypeError | AttributeError | OSError
  | UnicodeDecodeError | JSONDecodeError | EOFError | DownloadError.

Record exn := Exn { exn_class_of : exn_class; exn_msg : string }.

Inductive result (A : Type) :=
  | Ok (a : A)
  | Raise (e : exn).
Arguments Ok {A} a.
Arguments Raise {A} e.

Definition is_ok {A} (r : result A) : bool :=
  match r with Ok _ => true | Raise _ => false end.

(** [try: body / except Exception: handler] for a pure body. *)
Definition try_except {A} (body : result A) (handler : exn -> result A) : result A :=
  match body with
  | Ok a => Ok a
  | Raise e => handler e
  end.

Definition bind {A B} (r : result A) (k : A -> result B) : result B :=
  match r with
  | Ok a => k a
  | Raise e => Raise e
  end.

Notation "x <- r ; k" := (bind r (fun x => k))
  (at level 100, r at next level, right associativity, only parsing).

(** ** Strings

    A [str] is the sequence of its code points.  Rocq's [ascii] has eight
    bits, so the model covers the code points below 256 (Latin-1), with
    the behaviour CPython's Unicode tables give on that range. *)

Definition code (c : ascii) : N := N_of_ascii c.

Definition in_range (lo hi n : N) : bool := ((lo <=? n) && (n <=? hi))%N.

(** [str.lower] on one character: A-Z and the Latin-1 capitals
    (U+00C0..U+00DE without the multiplication sign U+00D7) move up by 32. *)
Definition lower_char (c : ascii) : ascii :=
  let n := code c in
  if in_range 65 90 n || (in_range 192 222 n && negb (n =? 215)%N)
  then ascii_of_N (n + 32) else c.

Fixpoint lower (s : string) : string :=
  match s with
  | EmptyString => EmptyString
  | String c r => String (lower_char c) (lower r)
  end.

(** [ch.isdigit()]: the decimal digits and the superscripts two, three
    and one (U+00B2, U+00B3, U+00B9), which have the Unicode property
    [Numeric_Type=Digit] without being decimal. *)
Definition is_decimal (c : ascii) : bool := in_range 48 57 (code c).

Definition isdigit (c : ascii) : bool :=
  let n := code c in
  is_decimal c || (n =? 178)%N || (n =? 179)%N || (n =? 185)%N.

(** [ch.isspace()], as used by [str.strip()]. *)
Definition isspace (c : ascii) : bool :=
  let n := code c in
  in_range 9 13 n || in_range 28 32 n || (n =? 133)%N || (n =? 160)%N.

Fixpoint lstrip (s : string) : string :=
  match s with
  | EmptyString => EmptyString
  | String c r => if isspace c then lstrip r else s
  end.

Fixpoint rstrip (s : string) : string :=
  match s with
  | EmptyString => EmptyString
  | String c r =>
      match rstrip r with
      | EmptyString => if isspace c then EmptyString else String c EmptyString
      | r' => String c r'
      end
  end.

Definition strip (s : string) : string := rstrip (lstrip s).

(** [s.startswith(p)] and [needle in s]. *)
Definition startswith (s p : string) : bool := String.prefix p s.

Fixpoint contains (needle s : string) : bool :=
  String.prefix needle s ||
  match s with
  | EmptyString => false
  | String _ r => contains needle r
  end.

(** [""[.join(ch for ch in s if pred(ch))]] *)
Fixpoint join_filter (pred : ascii -> bool) (s : string) : string :=
  match s with
  | EmptyString => EmptyString
  | String c r => if pred c then String c (join_filter pred r) else join_filter pred r
  end.

(** [int(s)] for a string [s] whose characters all satisfy [isdigit], as
    at both call sites: the empty string and a string holding a
    character that is not decimal raise [ValueError].  Integers are
    unbounded; the cap an interpreter may put on the length of a numeral
    ([sys.set_int_max_str_digits]) is left out. *)
Definition digit_val (c : ascii) : Z := Z.of_N (code c) - 48.

Fixpoint int_digits (acc : Z) (s : string) : option Z :=
  match s with
  | EmptyString => Some acc
  | String c r => if is_decimal c then int_digits (10 * acc + digit_val c) r else None
  end.

Definition invalid_literal (s : string) : exn :=
  Exn ValueError ("invalid literal for int() with base 10: '" ++ s ++ "'").

Definition py_int (s : string) : result Z :=
  match s with
  | EmptyString => Raise (invalid_literal s)
  | _ => match int_digits 0 s with
         | Some z => Ok z
         | None => Raise (invalid_literal s)
         end
  end.

(** [str(n)] and [f"{n}"] for an integer. *)
Definition py_str_int (n : Z) : string := NilZero.string_of_int (Z.to_int n).

(** ** [quality_to_format] *)

Definition best_labels : list string := ["best"; "best available"; "auto"].

Definition format_for_height (height : Z) : string :=
  "best[height<=" ++ py_str_int height ++ "]/bestvideo[height<="
    ++ py_str_int height ++ "]+bestaudio/best".

Definition quality_to_format (quality : string) : result string :=
  if bool_decide (lower quality ∈ best_labels) then Ok "best"
  else
    height <- try_except (py_int (join_filter isdigit quality)) (fun _ => Ok 1080);
    Ok (format_for_height height).

(** ** [ConsoleProgress]

    The byte counts, speed and ETA of a progress event are Python numbers
    (int or float) and the program handles them with float arithmetic.
    The renderer is written over the operations it applies to them; each
    field quotes the Python expression it stands for. *)

Class PyNumber (number : Type) := {
  num_zero : number;                   (* the literal [0] *)
  truthy : number -> bool;             (* [bool(x)] *)
  gt_zero : number -> bool;            (* [x > 0] *)
  percent_of : number -> number -> Z;
    (* [int(max(0.0, min(100.0, (downloaded / total) * 100.0)))] *)
  ge_1024 : number -> bool;            (* [x >= 1024] *)
  div_1024 : number -> number;         (* [x / 1024.0] *)
  format_2f : number -> string;        (* [f"{x:.2f}"] *)
  int_of : number -> Z;                (* [int(x)], for a finite [x] *)
}.

Definition CR : string := String "013" EmptyString.
Definition NL : string := String "010" EmptyString.

(** [f"{n:3d}"] and [f"{n:02d}"]. *)
Definition pad_left (fill : ascii) (width : nat) (s : string) : string :=
  String.concat "" (repeat (String fill EmptyString) (width - String.length s)) ++ s.

Definition format_3d (n : Z) : string := pad_left " " 3 (py_str_int n).
Definition format_02d (n : Z) : string := pad_left "0" 2 (py_str_int n).

Record progress := {
  _last_shown : Z;
  _finished_line_printed : bool;
}.

(** [ConsoleProgress.__init__] *)
Definition init_progress : progress :=
  {| _last_shown := -1; _finished_line_printed := false |}.

Section Renderer.
Context {number : Type} `{PyNumber number}.

(** A progress dictionary [d], read through [d.get]: an absent key and
    a key bound to [None] both give [None]. *)
Record event := {
  status : option string;
  downloaded_bytes : option number;
  total_bytes : option number;
  total_bytes_estimate : option number;
  speed : option number;
  eta : option number;
}.

(** [x or y] on optional numbers. *)
Definition py_or (x y : option number) : option number :=
  match x with
  | Some v => if truthy v then Some v else y
  | None => y
  end.

(** The [while] loop of [_human_speed]: [rest] holds the units after
    the current one, so [i < len(units) - 1] is [rest <> []]. *)
Fixpoint scale_speed (bps : number) (unit : string) (rest : list string)
  : number * string :=
  match rest with
  | [] => (bps, unit)
  | next :: rest' =>
      if ge_1024 bps then scale_speed (div_1024 bps) next rest' else (bps, unit)
  end.

Definition _human_speed (bps : option number) : string :=
  match bps with
  | None => "?"
  | Some b =>
      if negb (truthy b) then "?"
      else
        let '(b', unit) := scale_speed b "B/s" ["KB/s"; "MB/s"; "GB/s"] in
        format_2f b' ++ " " ++ unit
  end.

Definition _format_eta (seconds : option number) : string :=
  match seconds with
  | None => "?"
  | Some sec =>
      let n := int_of sec in
      let m := n / 60 in
      let s := n mod 60 in
      let h := m / 60 in
      let m := m mod 60 in
      if negb (h =? 0)%Z then
        py_str_int h ++ ":" ++ format_02d m ++ ":" ++ format_02d s
      else format_02d m ++ ":" ++ format_02d s
  end.

Definition unknown_line (speed eta : option number) : string :=
  "Downloading... (unknown size) | " ++ _human_speed speed
    ++ " | ETA " ++ _format_eta eta.

Definition percent_line (percent : Z) (speed eta : option number) : string :=
  "Downloading: " ++ format_3d percent ++ "% | " ++ _human_speed speed
    ++ " | ETA " ++ _format_eta eta.

(** The two lines a finished event is about. *)
Definition line_100 : string := CR ++ percent_line 100 None None.
Definition processing_line : string := "Processing file..." ++ NL.

(** The methods return the new state of [self] and the chunks they
    write to standard output, in order. *)
Definition _print_progress (self : progress) (percent : option Z)
    (speed eta : option number) : progress * list string :=
  match percent with
  | None =>
      ({| _last_shown := _last_shown self; _finished_line_printed := false |},
       [CR ++ unknown_line speed eta])
  | Some p =>
      if (p =? _last_shown self)%Z then (self, [])
      else
        ({| _last_shown := p; _finished_line_printed := false |},
         [CR ++ percent_line p speed eta])
  end.

Definition _println (self : progress) (text : string) : progress * list string :=
  if negb (_finished_line_printed self) then
    ({| _last_shown := _last_shown self; _finished_line_printed := true |},
     [NL; text ++ NL])
  else (self, [text ++ NL]).

Definition event_percent (d : event) : option Z :=
  let downloaded :=
    match py_or (downloaded_bytes d) (Some num_zero) with
    | Some v => v
    | None => num_zero
    end in
  match py_or (total_bytes d) (total_bytes_estimate d) with
  | Some total =>
      if truthy total && gt_zero total then Some (percent_of downloaded total)
      else None
  | None => None
  end.

Definition hook (self : progress) (d : event) : progress * list string :=
  match status d with
  | Some st =>
      if (st =? "downloading")%string then
        _print_progress self (event_percent d) (speed d) (eta d)
      else if (st =? "finished")%string then
        let '(self1, out1) := _print_progress self (Some 100) None None in
        let '(self2, out2) := _println self1 "Processing file..." in
        (self2, out1 ++ out2)%list
      else (self, [])
  | None => (self, [])
  end.

(** The engine calls the hook once per event, in order. *)
Fixpoint run_hooks (self : progress) (events : list event)
  : progress * list string :=
  match events with
  | [] => (self, [])
  | d :: rest =>
      let '(self1, out1) := hook self d in
      let '(self2, out2) := run_hooks self1 rest in
      (self2, out1 ++ out2)%list
  end.
End Renderer.
Arguments event number : clear implicits.

(** ** Python values read from and written to the preference file *)

Inductive pyval :=
  | PNone
  | PBool (b : bool)
  | PInt (z : Z)
  | PFloat (literal : string)
  | PStr (s : string)
  | PList (l : list pyval)
  | PDict (m : gmap string pyval).

Definition type_name (v : pyval) : string :=
  match v with
  | PNone => "NoneType"
  | PBool _ => "bool"
  | PInt _ => "int"
  | PFloat _ => "float"
  | PStr _ => "str"
  | PList _ => "list"
  | PDict _ => "dict"
  end.

Definition no_attribute (v : pyval) (attr : string) : exn :=
  Exn AttributeError
    ("'" ++ type_name v ++ "' object has no attribute '" ++ attr ++ "'").

(** [config.get(key, dflt)] *)
Definition py_get (config : pyval) (key : string) (dflt : pyval) : result pyval :=
  match config with
  | PDict m => Ok (default dflt (m !! key))
  | _ => Raise (no_attribute config "get")
  end.

(** [config[key] = value], with the object after the assignment. *)
Definition py_setitem (config : pyval) (key : string) (value : pyval) : result pyval :=
  match config with
  | PDict m => Ok (PDict (<[key := value]> m))
  | PList _ => Raise (Exn TypeError "list indices must be integers or slices, not str")
  | _ => Raise (Exn TypeError
                  ("'" ++ type_name config ++ "' object does not support item assignment"))
  end.

(** ** The environment of a run

    What the operating system, the terminal and the retrieval engine
    answer is fixed by an environment; what the program changes is the
    world. *)

Definition CONFIG_FILE : string := "downloader_config.json".

(** What [CONFIG_FILE] holds, by what reading it yields. *)
Inductive file_content :=
  | FileJson (v : pyval)    (* text that [json.load] parses to [v] *)
  | FileNotUtf8             (* bytes that are not UTF-8 *)
  | FileNotJson.            (* text that is not JSON, the empty file included *)

Inductive file_state :=
  | Absent
  | Unreadable              (* exists, [open] fails *)
  | Holds (c : file_content).

Record world := {
  config_file : file_state;               (* the state of [CONFIG_FILE] *)
  stdout : list string;
  stderr : list string;
  stdin : list string;
}.

Record ydl_opts := {
  opt_format : string;
  opt_outtmpl : string;
  opt_quiet : bool;
  opt_no_warnings : bool;
  opt_noprogress : bool;
}.

Record env (number : Type) := {
  os_stat : string -> result unit;        (* [os.stat(path)] *)
  os_makedirs : string -> result unit;    (* [os.makedirs(path, exist_ok=True)] *)
  home_dir : string;                      (* [os.path.expanduser("~")] *)
  path_join : string -> string -> string; (* [os.path.join] *)
  container_repr : pyval -> string;       (* [str(v)] for a float, list or dict *)
  open_w_fails : option exn;              (* [open(CONFIG_FILE, "w")] raises *)
  dump_fails : option (exn * file_content);
    (* [json.dump] raises part-way, leaving this content behind *)
  engine : ydl_opts -> string -> list (event number) * result unit;
    (* [ydl.download([url])]: the progress events, then return or raise *)
}.
Arguments os_stat {number} _ _.
Arguments os_makedirs {number} _ _.
Arguments home_dir {number} _.
Arguments path_join {number} _ _ _.
Arguments container_repr {number} _ _.
Arguments open_w_fails {number} _.
Arguments dump_fails {number} _.
Arguments engine {number} _ _ _.

(** The state-and-exception monad of the program: an exception leaves
    the world as it was when it was raised. *)
Definition M (A : Type) : Type := world -> result A * world.

Definition ret {A} (a : A) : M A := fun w => (Ok a, w).
Definition raise {A} (e : exn) : M A := fun w => (Raise e, w).
Definition lift {A} (r : result A) : M A := fun w => (r, w).

Definition mbind {A B} (m : M A) (k : A -> M B) : M B :=
  fun w =>
    match m w with
    | (Ok a, w') => k a w'
    | (Raise e, w') => (Raise e, w')
    end.

Notation "x <~ m ; k" := (mbind m (fun x => k))
  (at level 100, m at next level, right associativity, only parsing).
Notation "m ;; k" := (mbind m (fun _ => k))
  (at level 100, right associativity, only parsing).

(** [try: body / except Exception as e: handler(e)] *)
Definition try_catch {A} (body : M A) (handler : exn -> M A) : M A :=
  fun w =>
    match body w with
    | (Ok a, w') => (Ok a, w')
    | (Raise e, w') => handler e w'
    end.

Definition set_config_file (f : file_state) : M unit :=
  fun w => (Ok tt, {| config_file := f; stdout := stdout w;
                      stderr := stderr w; stdin := stdin w |}).

Definition write_stdout (chunks : list string) : M unit :=
  fun w => (Ok tt, {| config_file := config_file w; stdout := (stdout w ++ chunks)%list;
                      stderr := stderr w; stdin := stdin w |}).

Definition write_stderr (chunks : list string) : M unit :=
  fun w => (Ok tt, {| config_file := config_file w; stdout := stdout w;
                      stderr := (stderr w ++ chunks)%list; stdin := stdin w |}).

(** [print(text)] and [print(text, file=sys.stderr)] *)
Definition print (text : string) : M unit := write_stdout [text ++ NL].
Definition eprint (text : string) : M unit := write_stderr [text ++ NL].

(** [input(prompt)]: the prompt goes to standard output, then a line is
    read; at end of input [EOFError] is raised. *)
Definition input (prompt : string) : M string :=
  write_stdout [prompt] ;;
  fun w =>
    match stdin w with
    | [] => (Raise (Exn EOFError "EOF when reading a line"), w)
    | line :: rest =>
        (Ok line, {| config_file := config_file w; stdout := stdout w;
                     stderr := stderr w; stdin := rest |})
    end.

Definition str_truthy (s : string) : bool :=
  match s with EmptyString => false | _ => true end.

(** The truth value of [None] or a string. *)
Definition opt_truthy (o : option string) : bool :=
  match o with Some s => str_truthy s | None => false end.

(** [s or v] for a string [s]. *)
Definition str_or (s : string) (v : pyval) : pyval :=
  if str_truthy s then PStr s else v.

Definition url_prefixes : list string :=
  ["www."; "youtube.com"; "m.youtube.com"; "youtu.be"].

Definition quality_choices : list string :=
  ["2160p"; "1440p"; "1080p"; "720p"; "480p"; "360p"; "best"].

Definition known_heights : list Z := [2160; 1440; 1080; 720; 480; 360].

Definition ffmpeg_note : string :=
  NL ++ "Note: Some quality options require ffmpeg. "
     ++ "Try --quality best, or install ffmpeg: https://ffmpeg.org/download.html".

(** The namespace [parse_args] returns. *)
Record args := {
  args_url : option string;
  args_output_dir : option string;
  args_quality : option string;
  args_filename_template : string;
  args_interactive : bool;
}.

Section Program.
Context {number : Type} `{PyNumber number} (E : env number).

(** [os.path.exists]: [os.stat] guarded by [except (OSError, ValueError)]. *)
Definition os_path_exists (path : string) : result bool :=
  try_except (_ <- os_stat E path; Ok true) (fun _ => Ok false).

Definition normalize_url (url : string) : result (option string) :=
  if negb (str_truthy url) then Ok None
  else
    let u := strip url in
    found <- os_path_exists u;
    if found then Ok None
    else if startswith (lower u) "http://" || startswith (lower u) "https://"
    then Ok (Some u)
    else if existsb (startswith (lower u)) url_prefixes
    then Ok (Some ("https://" ++ u))
    else Ok None.

(** [str(v)], as the f-strings apply it. *)
Definition py_str (v : pyval) : string :=
  match v with
  | PNone => "None"
  | PBool true => "True"
  | PBool false => "False"
  | PInt z => py_str_int z
  | PStr s => s
  | _ => container_repr E v
  end.

(** [os.makedirs(out_dir, exist_ok=True)] on a value of any type. *)
Definition py_makedirs (out_dir : pyval) : result unit :=
  match out_dir with
  | PStr s => os_makedirs E s
  | _ => Raise (Exn TypeError
                  ("expected str, bytes or os.PathLike object, not "
                     ++ type_name out_dir))
  end.

(** [quality.lower()] on a value of any type. *)
Definition py_lower (v : pyval) : result string :=
  match v with
  | PStr s => Ok (lower s)
  | _ => Raise (no_attribute v "lower")
  end.

Definition config_exists : M bool :=
  fun w => (Ok (match config_file w with Absent => false | _ => true end), w).

(** [open(CONFIG_FILE, "r", encoding="utf-8")] *)
Definition open_r : M file_content :=
  fun w =>
    match config_file w with
    | Absent => (Raise (Exn OSError "No such file or directory"), w)
    | Unreadable => (Raise (Exn OSError "Permission denied"), w)
    | Holds c => (Ok c, w)
    end.

Definition json_load (f : file_content) : M pyval :=
  match f with
  | FileJson v => ret v
  | FileNotUtf8 => raise (Exn UnicodeDecodeError "invalid start byte")
  | FileNotJson => raise (Exn JSONDecodeError "Expecting value")
  end.

(** The [try] block returns [Some v] where the source returns from
    inside it and [None] where control falls through to [return {}]. *)
Definition load_config : M pyval :=
  r <~ try_catch
         (found <~ config_exists;
          if found : bool then
            (f <~ open_r; v <~ json_load f; ret (Some v))
          else ret None)
         (fun _ => ret None);
  match r with
  | Some v => ret v
  | None => ret (PDict ∅)
  end.

(** [open(CONFIG_FILE, "w")] truncates the file once it succeeds. *)
Definition open_w : M unit :=
  match open_w_fails E with
  | Some e => raise e
  | None => set_config_file (Holds FileNotJson)
  end.

Definition json_dump (config : pyval) : M unit :=
  match dump_fails E with
  | Some (e, residue) => (set_config_file (Holds residue) ;; raise e)
  | None => set_config_file (Holds (FileJson config))
  end.

Definition save_config (config : pyval) : M unit :=
  try_catch (open_w ;; json_dump config) (fun _ => ret tt).

Definition default_download_dir (config : pyval) : result pyval :=
  py_get config "download_location" (PStr (path_join E (home_dir E) "Downloads")).

Definition url_guidance : string :=
  "Please enter a valid URL starting with http:// or https:// (e.g., https://youtu.be/...).".

(** The [while True] loop of the prompt.  Each turn reads one line and
    [input] raises once none is left, so the loop is run with the
    pending lines as its measure. *)
Fixpoint url_loop (pending : list string) : M string :=
  line <~ input "Video URL: ";
  url_norm <~ lift (normalize_url (strip line));
  if opt_truthy url_norm then ret (default "" url_norm)
  else
    print url_guidance ;;
    match pending with
    | [] => raise (Exn EOFError "EOF when reading a line")
    | _ :: rest => url_loop rest
    end.

Definition prompt_url : M string := fun w => url_loop (stdin w) w.

Definition coerce_quality (quality : string) : string :=
  if bool_decide (quality ∈ quality_choices) then quality
  else
    match try_except
            (height <- py_int (join_filter isdigit quality);
             if bool_decide (height ∈ known_heights)
             then Ok (py_str_int height ++ "p")
             else Ok "1080p")
            (fun _ => Ok "1080p") with
    | Ok q => q
    | Raise _ => "1080p"
    end.

(** [_interactive_prompt]: [None] is the aborted prompt, otherwise the
    fields [url], [out_dir] and [quality] of the returned dictionary. *)
Definition _interactive_prompt (config : pyval)
  : M (option (string * pyval * string)) :=
  print "YouTube Video Downloader (interactive)" ;;
  print (NL ++ "Press Enter to accept defaults shown in [brackets]." ++ NL) ;;
  url <~ prompt_url;
  default_dir <~ lift (default_download_dir config);
  line <~ input ("Download directory [" ++ py_str default_dir ++ "]: ");
  let out_dir := str_or (strip line) default_dir in
  made <~ try_catch
            (lift (py_makedirs out_dir) ;; ret true)
            (fun e =>
               print ("Invalid directory '" ++ py_str out_dir ++ "': " ++ exn_msg e) ;;
               ret false);
  if made : bool then
    default_quality <~ lift (py_get config "quality" (PStr "1080p"));
    print "Available qualities: 2160p, 1440p, 1080p, 720p, 480p, 360p, best" ;;
    line <~ input ("Quality [" ++ py_str default_quality ++ "]: ");
    quality <~ lift (py_lower (str_or (strip line) default_quality));
    ret (Some (url, out_dir, coerce_quality quality))
  else ret None.
(** The body of [main]'s [try] block, and its handler. *)
Definition download_and_save (config : pyval) (url : string) (out_dir : pyval)
    (quality : string) (opts : ydl_opts) : M Z :=
  let '(events, outcome) := engine E opts url in
  let '(progress1, out1) := run_hooks init_progress events in
  write_stdout out1 ;;
  lift outcome ;;
  let '(_, out2) := _println progress1 "Download completed successfully." in
  write_stdout out2 ;;
  config1 <~ lift (py_setitem config "download_location" out_dir);
  config2 <~ lift (py_setitem config1 "quality" (PStr quality));
  save_config config2 ;;
  ret 0.

Definition download_failed (e : exn) : M Z :=
  let err := exn_msg e in
  let err := if contains "ffmpeg" (lower err) then err ++ ffmpeg_note else err in
  eprint ("Download failed: " ++ err) ;;
  ret 1.

(** The part of [main] after the request is resolved. *)
Definition run_download (a : args) (config : pyval) (url : string)
    (out_dir quality : pyval) : M Z :=
  made <~ try_catch
            (lift (py_makedirs out_dir) ;; ret true)
            (fun e =>
               eprint ("Error: invalid output directory: " ++ exn_msg e) ;;
               ret false);
  if made : bool then
    quality_str <~ lift (match quality with
                         | PStr s => Ok s
                         | _ => Raise (no_attribute quality "lower")
                         end);
    format_string <~ lift (quality_to_format quality_str);
    outtmpl <~ lift (match out_dir with
                     | PStr d => Ok (path_join E d (args_filename_template a))
                     | _ => Raise (Exn TypeError
                                     ("expected str, bytes or os.PathLike object, not "
                                        ++ type_name out_dir))
                     end);
    let opts := {| opt_format := format_string; opt_outtmpl := outtmpl;
                   opt_quiet := true; opt_no_warnings := false;
                   opt_noprogress := true |} in
    print ("Saving to: " ++ py_str out_dir) ;;
    print ("Quality: " ++ quality_str ++ "  (format: " ++ format_string ++ ")") ;;
    try_catch (download_and_save config url out_dir quality_str opts) download_failed
  else ret 2.

(** [main], from the parsed arguments on.  The result is the exit code
    the function returns; [Raise] is an exception that escapes it. *)
Definition main (a : args) : M Z :=
  config <~ load_config;
  if args_interactive a || negb (opt_truthy (args_url a)) then
    info <~ _interactive_prompt config;
    match info with
    | None => ret 2
    | Some (url, out_dir, quality) =>
        run_download a config url out_dir (PStr quality)
    end
  else
    url <~ lift (normalize_url (default "" (args_url a)));
    if negb (opt_truthy url) then
      eprint "Error: invalid URL. Provide a URL starting with http(s) or run with --interactive." ;;
      ret 2
    else
      out_dir <~ (if opt_truthy (args_output_dir a)
                  then ret (PStr (default "" (args_output_dir a)))
                  else lift (default_download_dir config));
      quality <~ (if opt_truthy (args_quality a)
                  then ret (PStr (default "" (args_quality a)))
                  else lift (py_get config "quality" (PStr "1080p")));
      run_download a config (default "" url) out_dir quality.
End Program.

(** ** Binary64 numbers

    The instance of [PyNumber] for events whose numbers are Python
    floats, computed with the kernel's IEEE 754 binary64 arithmetic. *)

Module Binary64.
(** [max(a, b)] and [min(a, b)] return their first argument unless the
    second is strictly larger, respectively smaller. *)
Definition py_max (a b : float) : float := if PrimFloat.ltb a b then b else a.
Definition py_min (a b : float) : float := if PrimFloat.ltb b a then b else a.

(** The value of a finite float as [n / d] with [d] a power of two. *)
Definition ratio (m : positive) (e : Z) : Z * Z :=
  if (0 <=? e)%Z then (Z.pos m * 2 ^ e, 1) else (Z.pos m, 2 ^ (- e)).

(** [int(x)]: truncation towards zero. *)
Definition trunc (x : float) : Z :=
  match Prim2SF x with
  | S754_finite sign m e =>
      let '(n, d) := ratio m e in
      if sign then - (n / d) else n / d
  | _ => 0
  end.

Definition round_half_even (n d : Z) : Z :=
  let q := n / d in
  let r := n mod d in
  if (2 * r <? d)%Z then q
  else if (d <? 2 * r)%Z then q + 1
  else if Z.even q then q else q + 1.

Definition hundredths (n : Z) : string :=
  py_str_int (n / 100) ++ "." ++ format_02d (n mod 100).

Definition fmt_2f (x : float) : string :=
  match Prim2SF x with
  | S754_nan => "nan"
  | S754_infinity sign => if sign then "-inf" else "inf"
  | S754_zero sign => if sign then "-0.00" else "0.00"
  | S754_finite sign m e =>
      let '(n, d) := ratio m e in
      (if sign then "-" else "") ++ hundredths (round_half_even (100 * n) d)
  end.

Definition percent (downloaded total : float) : Z :=
  trunc (py_max 0%float (py_min 100%float ((downloaded / total) * 100)%float)).
End Binary64.

#[export] Instance binary64 : PyNumber float := {|
  num_zero := 0%float;
  truthy x := negb (PrimFloat.eqb x 0%float);
  gt_zero x := PrimFloat.ltb 0%float x;
  percent_of := Binary64.percent;
  ge_1024 x := PrimFloat.leb 1024%float x;
  div_1024 x := (x / 1024)%float;
  format_2f := Binary64.fmt_2f;
  int_of := Binary64.trunc;
|}.

(** ** The specification's side

    Definitions written from the words of the specification, to be
    compared with the functions above. *)

(** The integer a decimal numeral denotes, by the weight of each
    position. *)
Fixpoint numeral_value (s : string) : Z :=
  match s with
  | EmptyString => 0
  | String c r => digit_val c * 10 ^ Z.of_nat (String.length r) + numeral_value r
  end.

Fixpoint all_chars (pred : ascii -> bool) (s : string) : bool :=
  match s with
  | EmptyString => true
  | String c r => pred c && all_chars pred r
  end.

(** The height cap as the specification words it: the integer parsed
    from the digit characters, 1080 when there is none; no height where
    the digit characters are not the numeral of an integer.  [digit] is
    the reading of "digit character". *)
Definition claimed_height (digit : ascii -> bool) (label : string) : option Z :=
  let ds := join_filter digit label in
  if negb (str_truthy ds) then Some 1080
  else if all_chars is_decimal ds then Some (numeral_value ds)
  else None.

(** The height cap the program computes: as above, with 1080 also where
    the digit characters are not a decimal numeral. *)
Definition resolved_height (label : string) : Z :=
  default 1080 (claimed_height isdigit label).

Definition resolve (label : string) : string :=
  if bool_decide (lower label ∈ best_labels) then "best"
  else format_for_height (resolved_height label).

(** [s] starts with [p] up to the case of letters. *)
Fixpoint ci_startswith (s p : string) : bool :=
  match p, s with
  | EmptyString, _ => true
  | String _ _, EmptyString => false
  | String a p', String b s' =>
      (lower_char a =? lower_char b)%char && ci_startswith s' p'
  end.

Section UrlSpec.
Context {number : Type} (E : env number).

Definition is_existing_path (path : string) : bool := is_ok (os_stat E path).

(** [None] is the invalid result. *)
Definition normalize (raw : string) : option string :=
  let u := strip raw in
  if is_existing_path u then None
  else if ci_startswith u "http://" || ci_startswith u "https://" then Some u
  else if existsb (ci_startswith u) url_prefixes then Some ("https://" ++ u)
  else None.
End UrlSpec.

(** What [load] yields for each state of the preference file. *)
Definition loaded_record (f : file_state) : pyval :=
  match f with
  | Holds (FileJson v) => v
  | _ => PDict ∅
  end.

(** The preference file after [save(record)], from the file before. *)
Definition file_after_save {number : Type} (E : env number) (record : pyval)
    (before : file_state) : file_state :=
  match open_w_fails E, dump_fails E with
  | Some _, _ => before
  | None, Some (_, residue) => Holds residue
  | None, None => Holds (FileJson record)
  end.

(** The line [main] prints on the error stream for an exception. *)
Definition failure_line (e : exn) : string :=
  "Download failed: " ++ exn_msg e
    ++ (if contains "ffmpeg" (lower (exn_msg e)) then ffmpeg_note else "") ++ NL.

(** The record [main] saves: the loaded one with the two fields set. *)
Definition updated_record (m : gmap string pyval) (out_dir quality : string)
  : gmap string pyval :=
  <["quality" := PStr quality]> (<["download_location" := PStr out_dir]> m).

(** ** Notions the renderer's properties are stated with *)

Section RendererNotions.
Context {number : Type} `{PyNumber number}.

(** The events [hook] acts on. *)
Definition handled (d : event number) : bool :=
  match status d with
  | Some st => (st =? "downloading")%string || (st =? "finished")%string
  | None => false
  end.

(** [k] divisions by 1024.0. *)
Fixpoint div_times (k : nat) (bps : number) : number :=
  match k with
  | O => bps
  | S k' => div_times k' (div_1024 bps)
  end.
End RendererNotions.

Definition speed_units : list string := ["B/s"; "KB/s"; "MB/s"; "GB/s"].

(** A chunk that rewrites the progress line in place: it starts with a
    carriage return and leaves the cursor on that line. *)
Definition is_open (chunk : string) : bool :=
  match chunk with
  | String c _ => (c =? "013")%char
  | EmptyString => false
  end.

(** Standard output in which every in-place chunk is followed by
    another in-place chunk or by the bare newline: no message is
    written onto the progress line.  [open] tells whether the cursor is
    on a progress line before [out]. *)
Fixpoint separated (open : bool) (out : list string) : bool :=
  match out with
  | [] => true
  | chunk :: rest =>
      if is_open chunk then separated true rest
      else if open then (chunk =? NL)%string && separated false rest
      else separated false rest
  end.

(** Whether the cursor is on a progress line after [out]. *)
Fixpoint open_after (open : bool) (out : list string) : bool :=
  match out with
  | [] => open
  | chunk :: rest => open_after (is_open chunk) rest
  end.


(** Membership in a list of literals, by evaluation. *)
Ltac decide_member := apply (bool_decide_unpack _); vm_compute; exact I.

(** ** Notions the properties of the prompt and of [main] are stated with *)

Section MainNotions.
Context {number : Type} (E : env number).

(** A line the URL prompt rejects. *)
Definition invalid_line (line : string) : Prop :=
  normalize_url E (strip line) = Ok None.

(** What the URL prompt writes for rejected lines: the prompt and the
    guidance, once for each. *)
Definition reprompts (lines : list string) : list string :=
  concat (map (fun _ : string => ["Video URL: "; url_guidance ++ NL]) lines).

(** The options [main] hands to the engine for a directory and a
    quality. *)
Definition download_opts (a : args) (d q : string) : ydl_opts :=
  {| opt_format := resolve q;
     opt_outtmpl := path_join E d (args_filename_template a);
     opt_quiet := true; opt_no_warnings := false; opt_noprogress := true |}.

(** The directory and the quality of a run without the prompt: the
    flag, else the persisted value, else the default. *)
Definition resolved_out_dir (a : args) (m : gmap string pyval) : pyval :=
  if opt_truthy (args_output_dir a) then PStr (default "" (args_output_dir a))
  else default (PStr (path_join E (home_dir E) "Downloads"))
         (m !! "download_location").

Definition resolved_quality (a : args) (m : gmap string pyval) : pyval :=
  if opt_truthy (args_quality a) then PStr (default "" (args_quality a))
  else default (PStr "1080p") (m !! "quality").
End MainNotions.

(** What a download step writes to standard output: the two lines that
    announce it, what the renderer makes of the engine's events and,
    when the engine returned, the completion message. *)
Section DownloadOutput.
Context {number : Type} `{PyNumber number} (E : env number).

Definition announcement (d q : string) : list string :=
  [("Saving to: " ++ d) ++ NL;
   ("Quality: " ++ q ++ "  (format: " ++ resolve q ++ ")") ++ NL].

Definition rendering (a : args) (url d q : string) : list string :=
  snd (run_hooks init_progress (fst (engine E (download_opts E a d q) url))).

Definition completion (a : args) (url d q : string) : list string :=
  snd (_println
         (fst (run_hooks init_progress (fst (engine E (download_opts E a d q) url))))
         "Download completed successfully.").
End DownloadOutput.

Definition EOF_error : exn := Exn EOFError "EOF when reading a line".

(** The two lines the prompt opens with. *)
Definition prompt_header : list string :=
  ["YouTube Video Downloader (interactive)" ++ NL;
   (NL ++ "Press Enter to accept defaults shown in [brackets]." ++ NL) ++ NL].

(** A computation that leaves the preference file as it finds it. *)
Definition keeps_file {A} (m : M A) : Prop :=
  forall w, config_file (snd (m w)) = config_file w.

(** ** Sample events

    Events with float fields, for running the renderer. *)

Module Samples.
Definition finished_event : event float :=
  {| status := Some "finished"; downloaded_bytes := Some 100%float;
     total_bytes := Some 100%float; total_bytes_estimate := None;
     speed := None; eta := None |}.

(** Half of a transfer of known size. *)
Definition half_event : event float :=
  {| status := Some "downloading"; downloaded_bytes := Some 50%float;
     total_bytes := Some 100%float; total_bytes_estimate := None;
     speed := Some 1536%float; eta := Some 65%float |}.

(** A transfer of unknown size. *)
Definition unknown_event : event float :=
  {| status := Some "downloading"; downloaded_bytes := Some 50%float;
     total_bytes := None; total_bytes_estimate := None;
     speed := Some 1536%float; eta := None |}.

(** An environment in which no path exists, every directory can be
    made, the preference file can be written, and the engine reports
    [events] before it ends with [outcome]. *)
Definition sample_env (events : list (event float)) (outcome : result unit)
  : env float :=
  {| os_stat := fun _ => Raise (Exn OSError "No such file or directory");
     os_makedirs := fun _ => Ok tt;
     home_dir := "/home/user";
     path_join := fun a b => a ++ "/" ++ b;
     container_repr := fun _ => "";
     open_w_fails := None;
     dump_fails := None;
     engine := fun _ _ => (events, outcome) |}.

(** The same environment with every path existing. *)
Definition everything_exists (E : env float) : env float :=
  {| os_stat := fun _ => Ok tt;
     os_makedirs := os_makedirs E;
     home_dir := home_dir E;
     path_join := path_join E;
     container_repr := container_repr E;
     open_w_fails := open_w_fails E;
     dump_fails := dump_fails E;
     engine := engine E |}.

Definition world_with (f : file_state) (lines : list string) : world :=
  {| config_file := f; stdout := []; stderr := []; stdin := lines |}.

(** [downloader.py youtu.be/x -q 720p] *)
Definition args_quality_only : args :=
  {| args_url := Some "youtu.be/x"; args_output_dir := None;
     args_quality := Some "720p";
     args_filename_template := "%(title)s.%(ext)s";
     args_interactive := false |}.

(** [downloader.py https://youtu.be/x -o /tmp/x -q 720p] *)
Definition args_all_flags : args :=
  {| args_url := Some "https://youtu.be/x"; args_output_dir := Some "/tmp/x";
     args_quality := Some "720p";
     args_filename_template := "%(title)s.%(ext)s";
     args_interactive := false |}.

(** A preference file with a key the program does not know. *)
Definition themed_record : gmap string pyval :=
  <["theme" := PStr "dark"]> (<["quality" := PStr "480p"]> ∅).

(** An engine that reports nothing and returns. *)
Definition quiet_env : env float := sample_env [] (Ok tt).

(** An engine that reports half of the transfer, then its end. *)
Definition busy_env : env float := sample_env [half_event; finished_event] (Ok tt).

Definition permission_denied : exn := Exn OSError "[Errno 13] Permission denied".

(** The same environment in which no directory can be made. *)
Definition read_only (E : env float) : env float :=
  {| os_stat := os_stat E;
     os_makedirs := fun _ => Raise permission_denied;
     home_dir := home_dir E;
     path_join := path_join E;
     container_repr := container_repr E;
     open_w_fails := open_w_fails E;
     dump_fails := dump_fails E;
     engine := engine E |}.

(** [downloader.py] *)
Definition args_none : args :=
  {| args_url := None; args_output_dir := None; args_quality := None;
     args_filename_template := "%(title)s.%(ext)s";
     args_interactive := false |}.

(** [downloader.py youtu.be/x] *)
Definition args_url_only : args :=
  {| args_url := Some "youtu.be/x"; args_output_dir := None;
     args_quality := None;
     args_filename_template := "%(title)s.%(ext)s";
     args_interactive := false |}.

(** [downloader.py nonsense] *)
Definition args_bad_url : args :=
  {| args_url := Some "nonsense"; args_output_dir := None;
     args_quality := None;
     args_filename_template := "%(title)s.%(ext)s";
     args_interactive := false |}.

(** [downloader.py -i https://youtu.be/unused] *)
Definition args_interactive_url : args :=
  {| args_url := Some "https://youtu.be/unused"; args_output_dir := None;
     args_quality := None;
     args_filename_template := "%(title)s.%(ext)s";
     args_interactive := true |}.

(** A preference file whose quality is a number. *)
Definition numeric_quality_record : gmap string pyval :=
  <["quality" := PInt 720]> ∅.
End Samples.

(** * Properties *)

Import Samples.

(** ** Strings and numerals *)

Lemma pow10_succ (n : nat) : 10 ^ Z.of_nat (S n) = 10 * 10 ^ Z.of_nat n.
Proof. rewrite Nat2Z.inj_succ, Z.pow_succ_r by lia. reflexivity. Qed.

(** Reading a numeral digit by digit gives the value of its positions. *)
Lemma int_digits_value (s : string) (acc : Z) :
  int_digits acc s =
  if all_chars is_decimal s
  then Some (acc * 10 ^ Z.of_nat (String.length s) + numeral_value s)
  else None.
Proof.
  revert acc. induction s as [|c r IH]; intros acc.
  - simpl. f_equal. lia.
  - cbn [int_digits all_chars numeral_value String.length].
    destruct (is_decimal c); [|reflexivity].
    rewrite IH. cbn [andb]. destruct (all_chars is_decimal r); [|reflexivity].
    f_equal. rewrite pow10_succ. ring.
Qed.

Lemma py_int_claimed (digit : ascii -> bool) (label : string) :
  match py_int (join_filter digit label) with
  | Ok h => str_truthy (join_filter digit label) = true /\
            claimed_height digit label = Some h
  | Raise _ => str_truthy (join_filter digit label) = false \/
               claimed_height digit label = None
  end.
Proof.
  unfold claimed_height, py_int.
  destruct (join_filter digit label) as [|c r] eqn:Hds.
  - left. reflexivity.
  - rewrite int_digits_value. cbn [str_truthy negb].
    destruct (all_chars is_decimal (String c r)).
    + split; reflexivity.
    + right. reflexivity.
Qed.

Lemma quality_height_resolved (label : string) :
  try_except (py_int (join_filter isdigit label)) (fun _ => Ok 1080)
  = Ok (resolved_height label).
Proof.
  unfold resolved_height.
  pose proof (py_int_claimed isdigit label) as Hc.
  destruct (py_int (join_filter isdigit label)) as [h|e]; cbn [try_except].
  - destruct Hc as [_ ->]. reflexivity.
  - destruct Hc as [Hempty | ->]; [|reflexivity].
    unfold claimed_height. rewrite Hempty. reflexivity.
Qed.

Lemma format_for_height_nonempty (h : Z) : format_for_height h <> "".
Proof. unfold format_for_height. cbn. discriminate. Qed.

Lemma resolve_nonempty (label : string) : resolve label <> "".
Proof.
  unfold resolve. case_bool_decide.
  - discriminate.
  - apply format_for_height_nonempty.
Qed.

Lemma quality_to_format_resolve (label : string) :
  quality_to_format label = Ok (resolve label).
Proof.
  unfold quality_to_format, resolve.
  case_bool_decide; [reflexivity|].
  rewrite quality_height_resolved. reflexivity.
Qed.

(** Looking for a lower-case prefix in the lowered string is looking
    for it up to case in the string itself. *)
Lemma startswith_lower (p s : string) :
  lower p = p -> startswith (lower s) p = ci_startswith s p.
Proof.
  unfold startswith. revert s.
  induction p as [|a p IH]; intros s Hp; [destruct s; reflexivity|].
  cbn [lower] in Hp. injection Hp as Ha Hp.
  destruct s as [|b s]; [reflexivity|].
  cbn [lower String.prefix ci_startswith]. rewrite Ha, <- (IH s Hp).
  destruct (Ascii.ascii_dec a (lower_char b)) as [->|Hne].
  - rewrite Ascii.eqb_refl. reflexivity.
  - apply Ascii.eqb_neq in Hne. rewrite Hne. reflexivity.
Qed.

Lemma append_assoc (a b c : string) : (a ++ b) ++ c = a ++ (b ++ c).
Proof.
  induction a as [|x a IH]; [reflexivity|].
  change (String x ((a ++ b) ++ c) = String x (a ++ (b ++ c))).
  rewrite IH. reflexivity.
Qed.

Lemma strip_empty : strip "" = "".
Proof. reflexivity. Qed.

(** ** QualityResolver *)

Example quality_1080p :
  quality_to_format "1080p"
  = Ok "best[height<=1080]/bestvideo[height<=1080]+bestaudio/best".
Proof. reflexivity. Qed.

Example quality_best_any_case : quality_to_format "Best Available" = Ok "best".
Proof. reflexivity. Qed.

Example quality_no_digit : quality_to_format "hd" = Ok (format_for_height 1080).
Proof. reflexivity. Qed.

Example quality_leading_zero : quality_to_format "0720p" = Ok (format_for_height 720).
Proof. reflexivity. Qed.

(** C3 (as the program computes it): the digits of ["4k2160"] are
    concatenated to 42160, and that is the height cap of the selector. *)
Theorem C3_4k2160_caps_at_42160 :
  join_filter isdigit "4k2160" = "42160" /\
  quality_to_format "4k2160"
  = Ok "best[height<=42160]/bestvideo[height<=42160]+bestaudio/best".
Proof.
  split; [reflexivity|].
  unfold quality_to_format. vm_compute. reflexivity.
Qed.

(** C3 as stated fails: the selector for ["4k2160"] is not the one
    capped at 2160. *)
Lemma C3_counterexample :
  quality_to_format "4k2160" <> Ok (format_for_height 2160).
Proof. vm_compute. discriminate. Qed.



(** ** UrlNormalizer *)

Example url_with_scheme :
  normalize_url (sample_env [] (Ok tt)) "https://youtu.be/x" = Ok (Some "https://youtu.be/x").
Proof. reflexivity. Qed.

Example url_without_scheme :
  normalize_url (sample_env [] (Ok tt)) "  YouTu.be/x " = Ok (Some "https://YouTu.be/x").
Proof. reflexivity. Qed.

Example url_not_a_url : normalize_url (sample_env [] (Ok tt)) "not a url" = Ok None.
Proof. reflexivity. Qed.

Example url_empty : normalize_url (sample_env [] (Ok tt)) "" = Ok None.
Proof. reflexivity. Qed.

Example url_existing_path :
  normalize_url (everything_exists (sample_env [] (Ok tt))) "youtu.be/x" = Ok None.
Proof. reflexivity. Qed.

Example coerce_999 : coerce_quality "999" = "1080p".
Proof. reflexivity. Qed.

Example coerce_1440 : coerce_quality "1440" = "1440p".
Proof. reflexivity. Qed.

(** C6: [normalize_url] returns for every string, the empty one
    included, and what it returns is what the specification says of the
    trimmed string. *)
Theorem C6_normalize_url_total {number : Type} (E : env number) (url : string) :
  normalize_url E url = Ok (normalize E url).
Proof.
  unfold normalize_url, normalize, os_path_exists, is_existing_path.
  destruct url as [|c url'].
  - cbn [str_truthy negb]. rewrite strip_empty.
    destruct (os_stat E ""); reflexivity.
  - cbn [str_truthy negb].
    set (u := strip (String c url')). clearbody u.
    rewrite !(startswith_lower _ u) by reflexivity.
    assert (Hpre : existsb (startswith (lower u)) url_prefixes
                   = existsb (ci_startswith u) url_prefixes).
    { unfold url_prefixes. cbn [existsb].
      rewrite !(startswith_lower _ u) by reflexivity. reflexivity. }
    rewrite Hpre.
    destruct (os_stat E u); cbn [bind try_except is_ok]; [reflexivity|].
    destruct (ci_startswith u "http://" || ci_startswith u "https://"),
      (existsb (ci_startswith u) url_prefixes); reflexivity.
Qed.

(** ** ProgressRenderer *)

Section RendererProps.
Context {number : Type} `{PyNumber number}.
Implicit Types (self : progress) (d : event number).

Lemma hook_downloading self d :
  status d = Some "downloading" ->
  hook self d = _print_progress self (event_percent d) (speed d) (eta d).
Proof. intros Hs. unfold hook. rewrite Hs. reflexivity. Qed.

Lemma hook_finished self d :
  status d = Some "finished" ->
  hook self d =
  let '(self1, out1) := _print_progress self (Some 100) None None in
  let '(self2, out2) := _println self1 "Processing file..." in
  (self2, (out1 ++ out2)%list).
Proof. intros Hs. unfold hook. rewrite Hs. reflexivity. Qed.

(** What a finished event does, by the two fields of the state. *)
Lemma hook_finished_cases self d :
  status d = Some "finished" ->
  hook self d =
  ({| _last_shown := 100; _finished_line_printed := true |},
   if (_last_shown self =? 100)%Z then
     if _finished_line_printed self then [processing_line]
     else [NL; processing_line]
   else [line_100; NL; processing_line]).
Proof.
  intros Hs. rewrite (hook_finished _ _ Hs).
  destruct self as [shown printed]. unfold _print_progress, _println.
  cbn [_last_shown _finished_line_printed].
  rewrite (Z.eqb_sym 100 shown).
  destruct (Z.eqb_spec shown 100) as [->|Hne]; [destruct printed|]; reflexivity.
Qed.

Lemma line_100_text : line_100 = String "013" "Downloading: 100% | ? | ETA ?".
Proof. reflexivity. Qed.

(** C1 (amended): a finished event leaves [lastShownPercent] at 100
    and writes the 100% line exactly when [lastShownPercent] was not
    100 already; where it was, the event writes the [Processing
    file...] line without a progress line before it. *)
Theorem C1_finished_renders_unless_shown self d :
  status d = Some "finished" ->
  _last_shown (fst (hook self d)) = 100 /\
  (In line_100 (snd (hook self d)) <-> _last_shown self <> 100) /\
  snd (hook self d)
  = if (_last_shown self =? 100)%Z then
      if _finished_line_printed self then [processing_line]
      else [NL; processing_line]
    else [line_100; NL; processing_line].
Proof.
  intros Hs. rewrite (hook_finished_cases _ _ Hs). cbn [fst snd].
  split; [reflexivity|]. split; [|reflexivity].
  destruct (Z.eqb_spec (_last_shown self) 100) as [Heq|Hne].
  - split; [|intros Hne; contradiction].
    destruct (_finished_line_printed self); cbn [In];
      intros Hin; exfalso; intuition discriminate.
  - split; [intros _; exact Hne | intros _; left; reflexivity].
Qed.

(** Once a finished event has been handled, further finished events
    add their [Processing file...] line and nothing else. *)
Lemma run_hooks_finished_settled (ds : list (event number)) :
  Forall (fun d => status d = Some "finished") ds ->
  run_hooks {| _last_shown := 100; _finished_line_printed := true |} ds
  = ({| _last_shown := 100; _finished_line_printed := true |},
     repeat processing_line (length ds)).
Proof.
  induction 1 as [|d ds Hd _ IH]; [reflexivity|].
  cbn [run_hooks]. rewrite (hook_finished_cases _ _ Hd), IH. reflexivity.
Qed.

Lemma processing_line_not_NL : processing_line <> NL.
Proof. discriminate. Qed.

Lemma line_100_not_processing : line_100 <> processing_line.
Proof. rewrite line_100_text. discriminate. Qed.

Lemma line_100_not_NL : line_100 <> NL.
Proof. rewrite line_100_text. discriminate. Qed.

(** C2 (amended): over consecutive finished events the separating
    newline is written at most once, while the line [Processing
    file...] is written once for each of the events. *)
Theorem C2_processing_line_per_finished_event self (ds : list (event number)) :
  Forall (fun d => status d = Some "finished") ds ->
  count_occ string_dec (snd (run_hooks self ds)) processing_line = length ds /\
  (count_occ string_dec (snd (run_hooks self ds)) NL <= 1)%nat.
Proof.
  intros Hall. destruct Hall as [|d ds Hd Hds]; [split; cbn; lia|].
  cbn [run_hooks]. rewrite (hook_finished_cases _ _ Hd).
  rewrite (run_hooks_finished_settled _ Hds). cbn [snd length].
  pose proof processing_line_not_NL as Hpn.
  pose proof line_100_not_processing as Hlp.
  pose proof line_100_not_NL as Hln.
  rewrite !count_occ_app, count_occ_repeat_eq by reflexivity.
  rewrite count_occ_repeat_neq by exact (not_eq_sym Hpn).
  destruct (_last_shown self =? 100)%Z; [destruct (_finished_line_printed self)|];
    cbn [count_occ];
    repeat (destruct (string_dec _ _) as [Heq|Hneq];
            try (exfalso; congruence); try clear Heq; try clear Hneq);
    split; lia.
Qed.


End RendererProps.

(** *** The renderer on the sample events *)

Example percent_of_half_event : event_percent half_event = Some 50.
Proof. vm_compute. reflexivity. Qed.

Example percent_is_truncated_binary64 : percent_of 29%float 100%float = 28.
Proof. vm_compute. reflexivity. Qed.

Example half_event_line :
  snd (hook init_progress half_event)
  = [String "013" "Downloading:  50% | 1.50 KB/s | ETA 01:05"].
Proof. vm_compute. reflexivity. Qed.

Example unknown_event_line :
  snd (hook init_progress unknown_event)
  = [String "013" "Downloading... (unknown size) | 1.50 KB/s | ETA ?"].
Proof. vm_compute. reflexivity. Qed.

Lemma C1_witness :
  status finished_event = Some "finished" /\
  _last_shown (fst (hook init_progress finished_event)) = 100 /\
  (In line_100 (snd (hook init_progress finished_event))
   <-> _last_shown init_progress <> 100) /\
  snd (hook init_progress finished_event)
  = if (_last_shown init_progress =? 100)%Z then
      if _finished_line_printed init_progress then [processing_line]
      else [NL; processing_line]
    else [line_100; NL; processing_line].
Proof.
  split; [reflexivity|].
  apply (C1_finished_renders_unless_shown init_progress finished_event).
  reflexivity.
Defined.

(** C1 as stated fails: after one finished event [lastShownPercent] is
    100, and the finished event that follows writes no 100% line. *)
Lemma C1_counterexample :
  _last_shown (fst (hook init_progress finished_event)) = 100 /\
  snd (hook (fst (hook init_progress finished_event)) finished_event)
  = [processing_line] /\
  ~ In line_100
      (snd (hook (fst (hook init_progress finished_event)) finished_event)).
Proof.
  split; [reflexivity|]. split; [reflexivity|].
  vm_compute. intros [Heq|[]]. discriminate Heq.
Qed.

Lemma C2_witness :
  Forall (fun d : event float => status d = Some "finished")
    [finished_event; finished_event] /\
  count_occ string_dec
    (snd (run_hooks init_progress [finished_event; finished_event]))
    processing_line = length [finished_event; finished_event] /\
  (count_occ string_dec
     (snd (run_hooks init_progress [finished_event; finished_event])) NL <= 1)%nat.
Proof.
  split; [repeat constructor|].
  apply (C2_processing_line_per_finished_event init_progress
           [finished_event; finished_event]).
  repeat constructor.
Defined.

(** C2 as stated fails: two finished events in a row, with no render in
    between, write the line [Processing file...] twice. *)
Lemma C2_counterexample :
  snd (run_hooks init_progress [finished_event; finished_event])
  = [line_100; NL; processing_line; processing_line] /\
  ~ (count_occ string_dec
       (snd (run_hooks init_progress [finished_event; finished_event]))
       processing_line <= 1)%nat.
Proof. split; [reflexivity|]. vm_compute. lia. Qed.





(** ** PreferenceStore *)

Lemma load_config_loaded (w : world) :
  load_config w = (Ok (loaded_record (config_file w)), w).
Proof.
  unfold load_config, try_catch, mbind, config_exists, open_r, json_load, ret, raise.
  destruct w as [f out err inp]. destruct f as [| |[v| |]]; reflexivity.
Qed.

Lemma save_config_saved {number : Type} (E : env number) (record : pyval) (w : world) :
  save_config E record w
  = (Ok tt, {| config_file := file_after_save E record (config_file w);
               stdout := stdout w; stderr := stderr w; stdin := stdin w |}).
Proof.
  unfold save_config, try_catch, mbind, open_w, json_dump, file_after_save,
    set_config_file, raise, ret.
  destruct w as [f out err inp].
  destruct (open_w_fails E) as [e|]; [reflexivity|].
  destruct (dump_fails E) as [[e residue]|]; reflexivity.
Qed.

(** C8: [load] returns for every state of the preference file, and
    returns the empty record unless the file is there, opens, decodes
    and parses; [save] returns normally whether or not opening or
    writing the file fails.  Neither raises. *)
Theorem C8_preference_store_never_raises {number : Type} (E : env number)
    (record : pyval) (w : world) :
  load_config w = (Ok (loaded_record (config_file w)), w) /\
  loaded_record Absent = PDict ∅ /\
  loaded_record Unreadable = PDict ∅ /\
  loaded_record (Holds FileNotUtf8) = PDict ∅ /\
  loaded_record (Holds FileNotJson) = PDict ∅ /\
  fst (save_config E record w) = Ok tt.
Proof.
  split; [apply load_config_loaded|].
  rewrite save_config_saved. repeat split.
Qed.

(** ** DownloadOrchestrator *)

Section MainProps.
Context {number : Type} `{PyNumber number} (E : env number).

(** The [try] block of [main] with its handler, by the outcome of the
    engine and the type of the loaded preferences. *)
Lemma download_failed_line (e : exn) (w : world) :
  download_failed e w
  = (Ok 1, {| config_file := config_file w; stdout := stdout w;
              stderr := (stderr w ++ [failure_line e])%list; stdin := stdin w |}).
Proof.
  unfold download_failed, mbind, eprint, write_stderr, ret, failure_line.
  destruct (contains "ffmpeg" (lower (exn_msg e)));
    rewrite !append_assoc; reflexivity.
Qed.

Lemma attempt_outcome (config : pyval) (url : string) (d q : string)
    (opts : ydl_opts) (w : world) :
  let r := try_catch (download_and_save E config url (PStr d) q opts)
             (download_failed) w in
  match snd (engine E opts url), py_setitem config "download_location" (PStr d) with
  | Raise e, _ | Ok _, Raise e =>
      fst r = Ok 1 /\ config_file (snd r) = config_file w /\
      stderr (snd r) = (stderr w ++ [failure_line e])%list
  | Ok _, Ok _ =>
      exists m, config = PDict m /\
      fst r = Ok 0 /\ stderr (snd r) = stderr w /\
      config_file (snd r)
      = file_after_save E (PDict (updated_record m d q)) (config_file w)
  end.
Proof.
  unfold download_and_save, try_catch.
  destruct (engine E opts url) as [events outcome].
  destruct (run_hooks init_progress events) as [progress1 out1].
  destruct (_println progress1 "Download completed successfully.") as [progress2 out2].
  unfold mbind, lift, ret, write_stdout. cbn [snd].
  destruct outcome as [[]|e].
  - destruct config as [| | | | |l|m]; cbn [py_setitem];
      try (rewrite download_failed_line; cbn; repeat split).
    rewrite save_config_saved. exists m. cbn. repeat split.
  - rewrite download_failed_line. cbn. repeat split.
Qed.

(** [run_download] returns 0 only through a successful engine call on
    a loaded dictionary, and then the file is what [save] makes of the
    updated record. *)
Lemma run_download_exit_0 (a : args) (config : pyval) (url : string)
    (out_dir quality : pyval) (w w' : world) :
  run_download E a config url out_dir quality w = (Ok 0, w') ->
  exists m d q,
    config = PDict m /\ out_dir = PStr d /\ quality = PStr q /\
    config_file w'
    = file_after_save E (PDict (updated_record m d q)) (config_file w).
Proof.
  unfold run_download.
  unfold mbind at 1. unfold try_catch at 1. unfold mbind at 1.
  unfold lift at 1.
  destruct (py_makedirs E out_dir) as [[]|e] eqn:Hmk.
  2:{ unfold mbind, eprint, write_stderr, ret. intros [=]. }
  destruct out_dir as [| | | |d| |]; try discriminate Hmk.
  unfold ret at 1.
  unfold mbind at 1, lift at 1.
  destruct quality as [| | | |q| |]; try (intros Hx; discriminate Hx).
  rewrite quality_to_format_resolve.
  unfold mbind, lift, print, write_stdout.
  set (opts := {| opt_format := _ |}).
  set (w2 := {| stdout := _ |}).
  intros Hrun.
  pose proof (attempt_outcome config url d q opts w2) as Hatt.
  cbv zeta in Hatt. rewrite Hrun in Hatt. cbn [fst snd] in Hatt.
  destruct (snd (engine E opts url)) as [[]|e1];
    [destruct (py_setitem config "download_location" (PStr d)) as [c1|e1]|];
    try (destruct Hatt as [[=] _]).
  destruct Hatt as [m [-> [_ [_ Hfile]]]].
  exists m, d, q. repeat split. exact Hfile.
Qed.

(** *** What leaves the preference file alone *)

Lemma keeps_ret {A} (a : A) : keeps_file (ret a).
Proof. intros w. reflexivity. Qed.

Lemma keeps_raise {A} (e : exn) : keeps_file (@raise A e).
Proof. intros w. reflexivity. Qed.

Lemma keeps_lift {A} (r : result A) : keeps_file (lift r).
Proof. intros w. reflexivity. Qed.

Lemma keeps_write_stdout (chunks : list string) : keeps_file (write_stdout chunks).
Proof. intros w. reflexivity. Qed.

Lemma keeps_write_stderr (chunks : list string) : keeps_file (write_stderr chunks).
Proof. intros w. reflexivity. Qed.

Lemma keeps_print (text : string) : keeps_file (print text).
Proof. apply keeps_write_stdout. Qed.

Lemma keeps_eprint (text : string) : keeps_file (eprint text).
Proof. apply keeps_write_stderr. Qed.

Lemma keeps_mbind {A B} (m : M A) (k : A -> M B) :
  keeps_file m -> (forall a, keeps_file (k a)) -> keeps_file (mbind m k).
Proof.
  intros Hm Hk w. unfold mbind. specialize (Hm w).
  destruct (m w) as [[a|e] w1]; cbn [snd] in *; [|exact Hm].
  rewrite (Hk a w1). exact Hm.
Qed.

Lemma keeps_try_catch {A} (m : M A) (h : exn -> M A) :
  keeps_file m -> (forall e, keeps_file (h e)) -> keeps_file (try_catch m h).
Proof.
  intros Hm Hh w. unfold try_catch. specialize (Hm w).
  destruct (m w) as [[a|e] w1]; cbn [snd] in *; [exact Hm|].
  rewrite (Hh e w1). exact Hm.
Qed.

Lemma keeps_input (prompt : string) : keeps_file (input prompt).
Proof.
  intros w. unfold input, mbind, write_stdout. cbn [stdin].
  destruct (stdin w); reflexivity.
Qed.

Lemma keeps_if {A} (b : bool) (m1 m2 : M A) :
  keeps_file m1 -> keeps_file m2 -> keeps_file (if b then m1 else m2).
Proof. destruct b; auto. Qed.

Create HintDb keeps discriminated.
#[local] Hint Resolve keeps_ret keeps_raise keeps_lift keeps_write_stdout
  keeps_write_stderr keeps_print keeps_eprint keeps_input keeps_if : keeps.
#[local] Hint Extern 2 (keeps_file (mbind _ _)) =>
  apply keeps_mbind; [|intros ?] : keeps.
#[local] Hint Extern 2 (keeps_file (try_catch _ _)) =>
  apply keeps_try_catch; [|intros ?] : keeps.

Lemma input_reads (prompt : string) (w : world) :
  input prompt w
  = match stdin w with
    | [] =>
        (Raise (Exn EOFError "EOF when reading a line"),
         {| config_file := config_file w; stdout := (stdout w ++ [prompt])%list;
            stderr := stderr w; stdin := [] |})
    | line :: rest =>
        (Ok line,
         {| config_file := config_file w; stdout := (stdout w ++ [prompt])%list;
            stderr := stderr w; stdin := rest |})
    end.
Proof.
  unfold input. unfold mbind, write_stdout. cbn [stdin stdout stderr config_file].
  destruct (stdin w); reflexivity.
Qed.

(** One turn of the prompt loop. *)
Lemma url_loop_turn (pending : list string) (w : world) :
  url_loop E pending w
  = match input "Video URL: " w with
    | (Raise e, w1) => (Raise e, w1)
    | (Ok line, w1) =>
        match normalize_url E (strip line) with
        | Raise e => (Raise e, w1)
        | Ok url_norm =>
            if opt_truthy url_norm then (Ok (default "" url_norm), w1)
            else
              match pending with
              | [] => (Raise (Exn EOFError "EOF when reading a line"),
                       snd (print url_guidance w1))
              | _ :: rest => url_loop E rest (snd (print url_guidance w1))
              end
        end
    end.
Proof.
  destruct pending; cbn [url_loop]; unfold mbind at 1;
    destruct (input "Video URL: " w) as [[line|e] w1]; try reflexivity;
    unfold mbind at 1, lift;
    destruct (normalize_url E (strip line)) as [url_norm|e]; try reflexivity;
    destruct (opt_truthy url_norm); reflexivity.
Qed.

(** The prompt loop does not depend on its measure once that covers the
    pending input: the loop ends by a valid URL or by [input] raising,
    never by the measure running out. *)
Lemma url_loop_measure (p1 p2 : list string) (w : world) :
  (length (stdin w) <= length p1)%nat ->
  (length (stdin w) <= length p2)%nat ->
  url_loop E p1 w = url_loop E p2 w.
Proof.
  revert p2 w. induction p1 as [|x1 p1 IH]; intros p2 w H1 H2;
    rewrite (url_loop_turn _ w), (url_loop_turn p2 w), input_reads;
    destruct (stdin w) as [|line rest] eqn:Hin; try reflexivity;
    cbn [length] in H1, H2; try lia.
  destruct (normalize_url E (strip line)) as [url_norm|e]; [|reflexivity].
  destruct (opt_truthy url_norm); [reflexivity|].
  destruct p2 as [|x2 p2]; cbn [length] in H2; [lia|].
  apply IH; cbn [print write_stdout snd stdin]; lia.
Qed.

Lemma keeps_url_loop (pending : list string) : keeps_file (url_loop E pending).
Proof.
  induction pending as [|line rest IH]; cbn [url_loop]; auto 10 with keeps.
Qed.

Lemma keeps_prompt_url : keeps_file (prompt_url E).
Proof. intros w. unfold prompt_url. apply keeps_url_loop. Qed.

Lemma keeps_interactive_prompt (config : pyval) :
  keeps_file (_interactive_prompt E config).
Proof.
  pose proof keeps_prompt_url.
  unfold _interactive_prompt. auto 20 with keeps.
Qed.




(** With the directory made and the quality a string, [run_download]
    comes to the [try] block, with only standard output written. *)
Lemma run_download_reaches_engine (a : args) (config : pyval) (url d q : string)
    (w : world) :
  os_makedirs E d = Ok tt ->
  exists opts w2,
    run_download E a config url (PStr d) (PStr q) w
    = try_catch (download_and_save E config url (PStr d) q opts)
        download_failed w2 /\
    config_file w2 = config_file w /\ stderr w2 = stderr w.
Proof.
  intros Hmk. unfold run_download.
  unfold mbind at 1, try_catch at 1, mbind at 1, lift at 1.
  cbn [py_makedirs]. rewrite Hmk. unfold ret at 1.
  unfold mbind at 1, lift at 1. rewrite quality_to_format_resolve.
  unfold mbind, lift, print, write_stdout.
  eexists _, _. split; [reflexivity|]. split; reflexivity.
Qed.

(** When the engine returns and the loaded preferences are a
    dictionary, [run_download] saves the updated record and returns 0. *)
Lemma run_download_engine_returns (a : args) (m : gmap string pyval)
    (url d q : string) (w : world) :
  os_makedirs E d = Ok tt ->
  (forall opts, snd (engine E opts url) = Ok tt) ->
  let r := run_download E a (PDict m) url (PStr d) (PStr q) w in
  fst r = Ok 0 /\ stderr (snd r) = stderr w /\
  config_file (snd r)
  = file_after_save E (PDict (updated_record m d q)) (config_file w).
Proof.
  intros Hmk Hengine.
  destruct (run_download_reaches_engine a (PDict m) url d q w Hmk)
    as (opts & w2 & Hrun & Hfile & Herr).
  cbv zeta. rewrite Hrun, <- Hfile, <- Herr.
  pose proof (attempt_outcome (PDict m) url d q opts w2) as Hatt.
  rewrite Hengine in Hatt. cbn [py_setitem] in Hatt.
  destruct Hatt as [m' [[= <-] Hatt]]. exact Hatt.
Qed.

(** *** When the engine raises *)

Lemma keeps_load_config : keeps_file load_config.
Proof. intros w. rewrite load_config_loaded. reflexivity. Qed.

Section EngineRaises.
Variable e : exn.
Hypothesis engine_raises : forall opts url, snd (engine E opts url) = Raise e.

Lemma attempt_engine_raises (config : pyval) (url d q : string)
    (opts : ydl_opts) (w : world) :
  let r := try_catch (download_and_save E config url (PStr d) q opts)
             download_failed w in
  fst r = Ok 1 /\ config_file (snd r) = config_file w /\
  stderr (snd r) = (stderr w ++ [failure_line e])%list.
Proof.
  pose proof (attempt_outcome config url d q opts w) as Hatt.
  rewrite engine_raises in Hatt. exact Hatt.
Qed.

(** Once the directory is made and the quality is a string,
    [run_download] reaches the engine; when the engine raises it
    returns 1, with the failure line on the error stream and the file
    as it was. *)
Lemma run_download_engine_raises (a : args) (config : pyval) (url d q : string)
    (w : world) :
  os_makedirs E d = Ok tt ->
  let r := run_download E a config url (PStr d) (PStr q) w in
  fst r = Ok 1 /\ config_file (snd r) = config_file w /\
  stderr (snd r) = (stderr w ++ [failure_line e])%list.
Proof.
  intros Hmk.
  destruct (run_download_reaches_engine a config url d q w Hmk)
    as (opts & w2 & Hrun & Hfile & Herr).
  cbv zeta. rewrite Hrun, <- Hfile, <- Herr. apply attempt_engine_raises.
Qed.

Lemma keeps_run_download (a : args) (config : pyval) (url : string)
    (out_dir quality : pyval) :
  keeps_file (run_download E a config url out_dir quality).
Proof.
  unfold run_download. apply keeps_mbind; [auto 10 with keeps|].
  intros [|]; [|auto with keeps].
  destruct quality as [| | | |q| |]; try (intros w; reflexivity).
  destruct out_dir as [| | | |d| |];
    try (intros w; unfold mbind, lift; rewrite quality_to_format_resolve;
         reflexivity).
  intros w. unfold mbind at 1, lift at 1. rewrite quality_to_format_resolve.
  unfold mbind, lift, print, write_stdout.
  match goal with
  | |- context [try_catch (download_and_save E _ _ _ _ ?opts) _ ?w2] =>
      exact (proj1 (proj2 (attempt_engine_raises config url d q opts w2)))
  end.
Qed.

(** With an engine that raises, no run of [main] touches the
    preference file, and none returns 0. *)
Lemma main_engine_raises (a : args) (w : world) :
  config_file (snd (main E a w)) = config_file w /\
  fst (main E a w) <> Ok 0.
Proof.
  split.
  - revert w. change (keeps_file (main E a)). unfold main.
    pose proof keeps_load_config. pose proof keeps_interactive_prompt.
    pose proof keeps_run_download.
    apply keeps_mbind; [assumption|]. intros config.
    apply keeps_if.
    + apply keeps_mbind; [auto|]. intros [[[url out_dir] quality]|]; auto with keeps.
    + apply keeps_mbind; [auto with keeps|]. intros url.
      apply keeps_if; [auto 10 with keeps|].
      apply keeps_mbind; [auto with keeps|]. intros out_dir.
      apply keeps_mbind; [auto with keeps|]. intros quality. auto.
  - intros Hfst. destruct (main E a w) as [r w'] eqn:Hrun. cbn [fst] in Hfst.
    subst r. revert Hrun. unfold main. unfold mbind at 1.
    rewrite load_config_loaded. set (config := loaded_record (config_file w)).
    assert (Hrd : forall url out_dir quality w1,
               run_download E a config url out_dir quality w1 <> (Ok 0, w')).
    { intros url out_dir quality w1 Hrun.
      destruct (run_download_exit_0 _ _ _ _ _ _ _ Hrun)
        as [m [d [q [_ [-> [-> _]]]]]].
      pose proof (run_download_engine_raises a config url d q w1) as Hr.
      rewrite Hrun in Hr. cbn [fst snd] in Hr.
      destruct (os_makedirs E d) as [[]|e1] eqn:Hmk.
      - destruct (Hr eq_refl) as [[=] _].
      - revert Hrun. unfold run_download.
        unfold mbind at 1, try_catch at 1, mbind at 1, lift at 1.
        cbn [py_makedirs]. rewrite Hmk. intros Hx; discriminate Hx. }
    destruct (args_interactive a || negb (opt_truthy (args_url a))).
    + unfold mbind at 1.
      destruct (_interactive_prompt E config w) as [[info|e1] w1];
        [|intros Hx; discriminate Hx].
      destruct info as [[[url out_dir] quality]|]; [|intros Hx; discriminate Hx].
      apply Hrd.
    + unfold mbind at 1, lift at 1.
      destruct (normalize_url E (default "" (args_url a))) as [url|e1];
        [|intros Hx; discriminate Hx].
      destruct (negb (opt_truthy url)); [intros Hx; discriminate Hx|].
      unfold mbind at 1.
      assert (Hres : forall (b : bool) (s : string) (r : result pyval),
                 (if b then ret (PStr s) else lift r) w
                 = ((if b then Ok (PStr s) else r), w))
        by (intros [] ? ?; reflexivity).
      rewrite Hres.
      destruct (if opt_truthy (args_output_dir a) then _ else _) as [out_dir|e1];
        [|intros Hx; discriminate Hx].
      unfold mbind at 1. rewrite Hres.
      destruct (if opt_truthy (args_quality a) then _ else _) as [quality|e1];
        [|intros Hx; discriminate Hx].
      apply Hrd.
Qed.
End EngineRaises.

(** When the engine raises once the request is resolved, [main]'s
    download step prints the failure line on the error stream, returns
    1 and leaves the preference file as it was. *)
Theorem engine_failure_exit_1 (e : exn) (a : args) (config : pyval)
    (url d q : string) (w : world) :
  (forall opts url, snd (engine E opts url) = Raise e) ->
  os_makedirs E d = Ok tt ->
  fst (run_download E a config url (PStr d) (PStr q) w) = Ok 1 /\
  config_file (snd (run_download E a config url (PStr d) (PStr q) w))
  = config_file w /\
  stderr (snd (run_download E a config url (PStr d) (PStr q) w))
  = (stderr w ++ [failure_line e])%list.
Proof. intros He Hmk. exact (run_download_engine_raises e He a config url d q w Hmk). Qed.

(** With an engine that raises, a run of [main] never returns 0 and
    never changes the preference file: the file is written only after
    a download that succeeded. *)
Theorem file_written_only_after_success (e : exn) (a : args) (w : world) :
  (forall opts url, snd (engine E opts url) = Raise e) ->
  config_file (snd (main E a w)) = config_file w /\
  fst (main E a w) <> Ok 0.
Proof. intros He. exact (main_engine_raises e He a w). Qed.

(** When the engine returns and the loaded preferences are a
    dictionary, the download step returns 0 and the file is what [save]
    makes of the record with [download_location] and [quality] set. *)
Theorem engine_success_saves_record (a : args) (m : gmap string pyval)
    (url d q : string) (w : world) :
  os_makedirs E d = Ok tt ->
  (forall opts, snd (engine E opts url) = Ok tt) ->
  fst (run_download E a (PDict m) url (PStr d) (PStr q) w) = Ok 0 /\
  stderr (snd (run_download E a (PDict m) url (PStr d) (PStr q) w)) = stderr w /\
  config_file (snd (run_download E a (PDict m) url (PStr d) (PStr q) w))
  = file_after_save E (PDict (updated_record m d q)) (config_file w).
Proof. intros Hmk He. exact (run_download_engine_returns a m url d q w Hmk He). Qed.

(** A record that [save] wrote is the record [load] returns. *)
Theorem save_then_load (record : pyval) (w : world) :
  open_w_fails E = None -> dump_fails E = None ->
  fst (load_config (snd (save_config E record w))) = Ok record.
Proof.
  intros Ho Hd. rewrite save_config_saved, load_config_loaded. cbn [fst snd].
  unfold file_after_save. rewrite Ho, Hd. reflexivity.
Qed.
End MainProps.

(** *** Sample runs of [main] *)

Example run_quality_only :
  let r := main (sample_env [half_event; finished_event] (Ok tt)) args_quality_only
             (world_with (Holds (FileJson (PDict themed_record))) []) in
  fst r = Ok 0 /\
  stderr (snd r) = [] /\
  config_file (snd r)
  = Holds (FileJson (PDict (<["quality" := PStr "720p"]>
                              (<["download_location" := PStr "/home/user/Downloads"]>
                                 themed_record)))).
Proof. vm_compute. repeat split. Qed.


(** The key [theme], unknown to the program, is still in the file
    after the run. *)
Example theme_survives :
  match config_file
          (snd (main (sample_env [half_event; finished_event] (Ok tt))
                  args_quality_only
                  (world_with (Holds (FileJson (PDict themed_record))) []))) with
  | Holds (FileJson (PDict m)) => m !! "theme" = Some (PStr "dark")
  | _ => False
  end.
Proof. vm_compute. reflexivity. Qed.

(** C7 holds of the program except where the preference file holds
    JSON that is not an object: [load_config] returns such a value as it
    is, and the assignment [config["download_location"] = out_dir]
    raises inside the [try] block.  Here the file holds an empty array
    and both [-o] and [-q] are given: the engine returns, and [main]
    reports a failure, returns 1 and saves nothing. *)
Theorem C7_array_preferences_success_exits_1 :
  (forall opts url,
     snd (engine (sample_env [half_event; finished_event] (Ok tt)) opts url) = Ok tt) /\
  fst (main (sample_env [half_event; finished_event] (Ok tt)) args_all_flags
         (world_with (Holds (FileJson (PList []))) [])) = Ok 1 /\
  stderr (snd (main (sample_env [half_event; finished_event] (Ok tt)) args_all_flags
                 (world_with (Holds (FileJson (PList []))) [])))
  = ["Download failed: list indices must be integers or slices, not str" ++ NL] /\
  config_file (snd (main (sample_env [half_event; finished_event] (Ok tt))
                      args_all_flags
                      (world_with (Holds (FileJson (PList []))) [])))
  = Holds (FileJson (PList [])).
Proof. split; [intros opts url; reflexivity|]. vm_compute. repeat split. Qed.

(** With an object in the file the same run returns 0 and rewrites the
    file. *)
Example object_preferences_success_exits_0 :
  fst (main (sample_env [half_event; finished_event] (Ok tt)) args_all_flags
         (world_with (Holds (FileJson (PDict ∅))) [])) = Ok 0 /\
  config_file (snd (main (sample_env [half_event; finished_event] (Ok tt))
                      args_all_flags
                      (world_with (Holds (FileJson (PDict ∅))) [])))
  = Holds (FileJson (PDict (updated_record ∅ "/tmp/x" "720p"))).
Proof. vm_compute. repeat split. Qed.

(** The engine raises: the message is on the error stream with the
    ffmpeg note, the run returns 1 and the file is untouched. *)
Example engine_error_exits_1 :
  let r := main (sample_env [half_event]
                   (Raise (Exn DownloadError "ERROR: ffmpeg not found")))
             args_all_flags
             (world_with (Holds (FileJson (PDict themed_record))) []) in
  fst r = Ok 1 /\
  stderr (snd r)
  = ["Download failed: ERROR: ffmpeg not found" ++ ffmpeg_note ++ NL] /\
  config_file (snd r) = Holds (FileJson (PDict themed_record)).
Proof. vm_compute. repeat split. Qed.

Lemma engine_failure_exit_1_witness :
  (forall opts url,
     snd (engine (sample_env [half_event] (Raise (Exn DownloadError "HTTP Error 403")))
            opts url)
     = Raise (Exn DownloadError "HTTP Error 403")) /\
  os_makedirs (sample_env [half_event] (Raise (Exn DownloadError "HTTP Error 403")))
    "/tmp/x" = Ok tt /\
  fst (run_download (sample_env [half_event] (Raise (Exn DownloadError "HTTP Error 403")))
         args_all_flags (PDict themed_record) "https://youtu.be/x"
         (PStr "/tmp/x") (PStr "720p") (world_with Absent [])) = Ok 1 /\
  config_file
    (snd (run_download
            (sample_env [half_event] (Raise (Exn DownloadError "HTTP Error 403")))
            args_all_flags (PDict themed_record) "https://youtu.be/x"
            (PStr "/tmp/x") (PStr "720p") (world_with Absent [])))
  = config_file (world_with Absent []) /\
  stderr
    (snd (run_download
            (sample_env [half_event] (Raise (Exn DownloadError "HTTP Error 403")))
            args_all_flags (PDict themed_record) "https://youtu.be/x"
            (PStr "/tmp/x") (PStr "720p") (world_with Absent [])))
  = (stderr (world_with Absent [])
       ++ [failure_line (Exn DownloadError "HTTP Error 403")])%list.
Proof.
  split; [intros opts url; reflexivity|]. split; [reflexivity|].
  apply (engine_failure_exit_1
           (sample_env [half_event] (Raise (Exn DownloadError "HTTP Error 403")))
           (Exn DownloadError "HTTP Error 403"));
    [intros opts url; reflexivity | reflexivity].
Defined.

Lemma file_written_only_after_success_witness :
  (forall opts url,
     snd (engine (sample_env [half_event] (Raise (Exn DownloadError "HTTP Error 403")))
            opts url)
     = Raise (Exn DownloadError "HTTP Error 403")) /\
  config_file
    (snd (main (sample_env [half_event] (Raise (Exn DownloadError "HTTP Error 403")))
            args_all_flags (world_with (Holds (FileJson (PDict themed_record))) [])))
  = config_file (world_with (Holds (FileJson (PDict themed_record))) []) /\
  fst (main (sample_env [half_event] (Raise (Exn DownloadError "HTTP Error 403")))
         args_all_flags (world_with (Holds (FileJson (PDict themed_record))) []))
  <> Ok 0.
Proof.
  split; [intros opts url; reflexivity|].
  apply (file_written_only_after_success
           (sample_env [half_event] (Raise (Exn DownloadError "HTTP Error 403")))
           (Exn DownloadError "HTTP Error 403")).
  intros opts url; reflexivity.
Defined.

Lemma engine_success_saves_record_witness :
  os_makedirs (sample_env [half_event; finished_event] (Ok tt)) "/tmp/x" = Ok tt /\
  (forall opts,
     snd (engine (sample_env [half_event; finished_event] (Ok tt)) opts
            "https://youtu.be/x") = Ok tt) /\
  fst (run_download (sample_env [half_event; finished_event] (Ok tt))
         args_all_flags (PDict themed_record) "https://youtu.be/x"
         (PStr "/tmp/x") (PStr "720p") (world_with Absent [])) = Ok 0 /\
  stderr
    (snd (run_download (sample_env [half_event; finished_event] (Ok tt))
            args_all_flags (PDict themed_record) "https://youtu.be/x"
            (PStr "/tmp/x") (PStr "720p") (world_with Absent [])))
  = stderr (world_with Absent []) /\
  config_file
    (snd (run_download (sample_env [half_event; finished_event] (Ok tt))
            args_all_flags (PDict themed_record) "https://youtu.be/x"
            (PStr "/tmp/x") (PStr "720p") (world_with Absent [])))
  = file_after_save (sample_env [half_event; finished_event] (Ok tt))
      (PDict (updated_record themed_record "/tmp/x" "720p"))
      (config_file (world_with Absent [])).
Proof.
  split; [reflexivity|]. split; [intros opts; reflexivity|].
  apply (engine_success_saves_record
           (sample_env [half_event; finished_event] (Ok tt)));
    [reflexivity | intros opts; reflexivity].
Defined.

Lemma save_then_load_witness :
  open_w_fails (sample_env [] (Ok tt)) = None /\
  dump_fails (sample_env [] (Ok tt)) = None /\
  fst (load_config
         (snd (save_config (sample_env [] (Ok tt))
                 (PDict (updated_record ∅ "/tmp/x" "720p")) (world_with Absent []))))
  = Ok (PDict (updated_record ∅ "/tmp/x" "720p")).
Proof.
  split; [reflexivity|]. split; [reflexivity|].
  apply (save_then_load (sample_env [] (Ok tt))); reflexivity.
Defined.

(** * Further properties of the renderer *)

Section RendererRuns.
Context {number : Type} `{PyNumber number}.
Implicit Types (self : progress) (d : event number).

Lemma hook_unhandled self d : handled d = false -> hook self d = (self, []).
Proof.
  unfold handled, hook. destruct (status d) as [st|]; [|reflexivity].
  intros Hst. apply orb_false_elim in Hst as [-> ->]. reflexivity.
Qed.

(** Events whose status is absent or is neither [downloading] nor
    [finished] are ignored: a run is the run over the handled events. *)
Theorem run_hooks_skips_unhandled self (ds : list (event number)) :
  run_hooks self ds = run_hooks self (List.filter handled ds).
Proof.
  revert self. induction ds as [|d ds IH]; intros self; [reflexivity|].
  cbn [run_hooks List.filter]. destruct (handled d) eqn:Hd.
  - cbn [run_hooks]. destruct (hook self d) as [self1 out1]. rewrite IH. reflexivity.
  - rewrite (hook_unhandled _ _ Hd), IH.
    destruct (run_hooks self (List.filter handled ds)). reflexivity.
Qed.

(** Running the hook over two batches of events is running it over the
    first and then, from the state reached, over the second. *)
Theorem run_hooks_app self (ds1 ds2 : list (event number)) :
  run_hooks self (ds1 ++ ds2)
  = (fst (run_hooks (fst (run_hooks self ds1)) ds2),
     (snd (run_hooks self ds1)
        ++ snd (run_hooks (fst (run_hooks self ds1)) ds2))%list).
Proof.
  revert self. induction ds1 as [|d ds1 IH]; intros self.
  - cbn. destruct (run_hooks self ds2). reflexivity.
  - cbn [run_hooks app]. destruct (hook self d) as [self1 out1].
    rewrite IH. destruct (run_hooks self1 ds1) as [self2 out2]. cbn [fst snd].
    destruct (run_hooks self2 ds2) as [self3 out3]. cbn [fst snd].
    rewrite app_assoc. reflexivity.
Qed.

Lemma run_hooks_shown self (ds : list (event number)) (p : Z) :
  Forall (fun d => status d = Some "downloading" /\ event_percent d = Some p) ds ->
  _last_shown self = p -> run_hooks self ds = (self, []).
Proof.
  induction 1 as [|d ds [Hs Hp] _ IH]; intros Hls; [reflexivity|].
  cbn [run_hooks]. rewrite (hook_downloading _ _ Hs), Hp.
  unfold _print_progress. rewrite Hls, Z.eqb_refl, (IH Hls). reflexivity.
Qed.

(** A run of downloading events that all compute the same percent
    writes at most one line, and none when that percent is the one
    already shown. *)
Theorem same_percent_run_writes_once self (ds : list (event number)) (p : Z) :
  Forall (fun d => status d = Some "downloading" /\ event_percent d = Some p) ds ->
  (length (snd (run_hooks self ds)) <= 1)%nat /\
  (p = _last_shown self -> snd (run_hooks self ds) = []) /\
  (ds <> [] -> _last_shown (fst (run_hooks self ds)) = p).
Proof.
  intros Hall.
  destruct Hall as [|d ds [Hs Hp] Hall]; [cbn; repeat split; [lia|congruence]|].
  cbn [run_hooks]. rewrite (hook_downloading _ _ Hs), Hp. unfold _print_progress.
  destruct (Z.eqb_spec p (_last_shown self)) as [Heq|Hne].
  - rewrite (run_hooks_shown self ds p Hall (eq_sym Heq)).
    cbn. repeat split; [lia|auto].
  - rewrite (run_hooks_shown _ ds p Hall) by reflexivity.
    cbn. repeat split; [lia|contradiction].
Qed.

(** *** No message on the progress line *)

Lemma is_open_progress (line : string) : is_open (CR ++ line) = true.
Proof.
  reflexivity.
Qed.

Lemma is_open_message (text : string) :
  is_open text = false -> is_open (text ++ NL) = false.
Proof. destruct text as [|c r]; [reflexivity|]. intros Hc. exact Hc. Qed.

Lemma separated_app (open : bool) (out1 out2 : list string) :
  separated open (out1 ++ out2)
  = separated open out1 && separated (open_after open out1) out2.
Proof.
  revert open. induction out1 as [|c r IH]; intros open; [reflexivity|].
  cbn [app separated open_after].
  destruct (is_open c) eqn:Hc; [apply IH|].
  destruct open; rewrite IH; [rewrite andb_assoc|]; reflexivity.
Qed.

Lemma open_after_app (open : bool) (out1 out2 : list string) :
  open_after open (out1 ++ out2) = open_after (open_after open out1) out2.
Proof. revert open. induction out1; intros open; [reflexivity|]. cbn. auto. Qed.

(** What [_println] writes keeps the output separated whenever the flag
    is down while the cursor is on a progress line. *)
Lemma println_separated self (text : string) (open : bool) :
  is_open text = false ->
  (open = true -> _finished_line_printed self = false) ->
  separated open (snd (_println self text)) = true /\
  open_after open (snd (_println self text)) = false /\
  _last_shown (fst (_println self text)) = _last_shown self.
Proof.
  intros Htext Hinv. apply is_open_message in Htext.
  unfold _println. destruct (_finished_line_printed self); cbn [negb fst snd].
  - destruct open; [specialize (Hinv eq_refl); discriminate|].
    cbn [separated open_after]. rewrite Htext. auto.
  - cbn [separated open_after]. rewrite Htext.
    change (is_open NL) with false. cbn. destruct open; auto.
Qed.

Lemma print_progress_separated self (percent : option Z)
    (speed eta : option number) (open : bool) :
  (open = true -> _finished_line_printed self = false) ->
  separated open (snd (_print_progress self percent speed eta)) = true /\
  (open_after open (snd (_print_progress self percent speed eta)) = true ->
   _finished_line_printed (fst (_print_progress self percent speed eta)) = false).
Proof.
  intros Hinv. unfold _print_progress.
  destruct percent as [p|]; [destruct (p =? _last_shown self)%Z|];
    cbn [fst snd separated open_after _finished_line_printed];
    rewrite ?is_open_progress; auto.
Qed.

Lemma hook_separated self d (open : bool) :
  (open = true -> _finished_line_printed self = false) ->
  separated open (snd (hook self d)) = true /\
  (open_after open (snd (hook self d)) = true ->
   _finished_line_printed (fst (hook self d)) = false).
Proof.
  intros Hinv. unfold hook. destruct (status d) as [st|]; [|cbn; auto].
  destruct (st =? "downloading")%string; [apply print_progress_separated; exact Hinv|].
  destruct (st =? "finished")%string; [|cbn; auto].
  destruct (print_progress_separated self (Some 100) None None open Hinv) as [Hs1 Ho1].
  destruct (_print_progress self (Some 100) None None) as [self1 out1].
  cbn [fst snd] in Hs1, Ho1.
  assert (Hinv1 : open_after open out1 = true -> _finished_line_printed self1 = false)
    by exact Ho1.
  destruct (println_separated self1 "Processing file..." (open_after open out1)
              eq_refl Hinv1) as [Hs2 [Ho2 _]].
  destruct (_println self1 "Processing file...") as [self2 out2].
  cbn [fst snd] in *. rewrite separated_app, open_after_app, Hs1, Hs2, Ho2.
  split; [reflexivity | discriminate].
Qed.

Lemma run_hooks_separated self (ds : list (event number)) (open : bool) :
  (open = true -> _finished_line_printed self = false) ->
  separated open (snd (run_hooks self ds)) = true /\
  (open_after open (snd (run_hooks self ds)) = true ->
   _finished_line_printed (fst (run_hooks self ds)) = false).
Proof.
  revert self open. induction ds as [|d ds IH]; intros self open Hinv; [cbn; auto|].
  cbn [run_hooks]. destruct (hook_separated self d open Hinv) as [Hs1 Ho1].
  destruct (hook self d) as [self1 out1]. cbn [fst snd] in Hs1, Ho1.
  destruct (IH self1 (open_after open out1) Ho1) as [Hs2 Ho2].
  destruct (run_hooks self1 ds) as [self2 out2]. cbn [fst snd] in *.
  rewrite separated_app, open_after_app, Hs1, Hs2. auto.
Qed.

(** Whatever events the engine reports, a message printed with
    [_println] after them never lands on the progress line: in the
    output every in-place chunk is followed by another in-place chunk
    or by the bare newline, and the output ends at the start of a line. *)
Theorem message_never_on_progress_line (ds : list (event number)) (text : string) :
  is_open text = false ->
  separated false
    (snd (run_hooks init_progress ds)
       ++ snd (_println (fst (run_hooks init_progress ds)) text)) = true /\
  open_after false
    (snd (run_hooks init_progress ds)
       ++ snd (_println (fst (run_hooks init_progress ds)) text)) = false.
Proof.
  intros Htext.
  destruct (run_hooks_separated init_progress ds false) as [Hs1 Ho1]; [discriminate|].
  destruct (println_separated (fst (run_hooks init_progress ds)) text
              (open_after false (snd (run_hooks init_progress ds))) Htext Ho1)
    as [Hs2 [Ho2 _]].
  rewrite separated_app, open_after_app, Hs1, Hs2, Ho2. auto.
Qed.

(** *** Speed and ETA texts *)

(** [_human_speed] renders an absent or zero speed as [?]; otherwise it
    divides by 1024 until the value is below 1024 or the unit is GB/s,
    and prints the value reached with the unit of that many divisions. *)
Theorem human_speed_scaled (bps : number) :
  truthy bps = true ->
  exists k : nat,
    (k <= 3)%nat /\
    _human_speed (Some bps)
    = format_2f (div_times k bps) ++ " " ++ nth k speed_units "" /\
    (forall j : nat, (j < k)%nat -> ge_1024 (div_times j bps) = true) /\
    ((k < 3)%nat -> ge_1024 (div_times k bps) = false).
Proof.
  intros Ht. unfold _human_speed. rewrite Ht. cbn [negb scale_speed].
  destruct (ge_1024 bps) eqn:H0.
  2:{ exists 0%nat. cbn. repeat split; [lia | lia | auto]. }
  destruct (ge_1024 (div_1024 bps)) eqn:H1.
  2:{ exists 1%nat. cbn. repeat split; [lia | | auto].
      intros j Hj. assert (j = 0)%nat as -> by lia. exact H0. }
  destruct (ge_1024 (div_1024 (div_1024 bps))) eqn:H2.
  2:{ exists 2%nat. cbn. repeat split; [lia | | auto].
      intros j Hj. destruct j as [|[|j]]; [exact H0 | exact H1 | lia]. }
  exists 3%nat. cbn. repeat split; [lia | | lia].
  intros j Hj. destruct j as [|[|[|j]]]; [exact H0 | exact H1 | exact H2 | lia].
Qed.

Lemma human_speed_unknown (bps : option number) :
  match bps with Some b => truthy b = false | None => True end ->
  _human_speed bps = "?".
Proof.
  destruct bps as [b|]; [|reflexivity]. intros Hb. unfold _human_speed.
  rewrite Hb. reflexivity.
Qed.

Lemma format_02d_width (n : Z) :
  0 <= n < 100 -> String.length (format_02d n) = 2%nat.
Proof.
  intros Hn.
  assert (Hall : forallb (fun k => Nat.eqb (String.length (format_02d (Z.of_nat k))) 2)
                   (seq 0 100) = true) by (vm_compute; reflexivity).
  rewrite forallb_forall in Hall. specialize (Hall (Z.to_nat n)).
  rewrite Z2Nat.id in Hall by lia.
  apply Nat.eqb_eq, Hall, in_seq. lia.
Qed.

(** [_format_eta] splits the whole seconds [n] into hours, minutes and
    seconds with [n = 3600 h + 60 m + s]; minutes and seconds are in
    0..59 and take two characters each, also for a negative [n]; the
    hours are written, unpadded, exactly when they are not zero. *)
Theorem format_eta_clock (sec : number) :
  int_of sec
  = 3600 * (int_of sec / 3600) + 60 * ((int_of sec / 60) mod 60)
    + int_of sec mod 60 /\
  0 <= (int_of sec / 60) mod 60 < 60 /\
  0 <= int_of sec mod 60 < 60 /\
  _format_eta (Some sec)
  = (if (int_of sec / 3600 =? 0)%Z then ""
     else py_str_int (int_of sec / 3600) ++ ":")
      ++ format_02d ((int_of sec / 60) mod 60) ++ ":"
      ++ format_02d (int_of sec mod 60) /\
  String.length (format_02d ((int_of sec / 60) mod 60)) = 2%nat /\
  String.length (format_02d (int_of sec mod 60)) = 2%nat.
Proof.
  set (n := int_of sec).
  assert (Hm : 0 <= (n / 60) mod 60 < 60) by (apply Z.mod_pos_bound; lia).
  assert (Hs : 0 <= n mod 60 < 60) by (apply Z.mod_pos_bound; lia).
  assert (Hh : n / 60 / 60 = n / 3600) by (rewrite Z.div_div by lia; reflexivity).
  split.
  { pose proof (Z.div_mod n 60 ltac:(lia)) as H1.
    pose proof (Z.div_mod (n / 60) 60 ltac:(lia)) as H2.
    rewrite Hh in H2. lia. }
  split; [exact Hm|]. split; [exact Hs|].
  split; [|split; apply format_02d_width; lia].
  unfold _format_eta. fold n. cbv zeta. rewrite Hh.
  destruct (n / 3600 =? 0)%Z; cbn [negb].
  - reflexivity.
  - rewrite append_assoc. reflexivity.
Qed.
End RendererRuns.

(** * Further properties of the quality labels *)















Lemma known_height_label (h : Z) :
  h ∈ known_heights -> py_str_int h ++ "p" ∈ quality_choices.
Proof.
  unfold known_heights. intros Hh.
  repeat (apply elem_of_cons in Hh as [->|Hh]); [..|inversion Hh];
    decide_member.
Qed.

Lemma coerce_quality_cases (quality : string) :
  (quality ∈ quality_choices /\ coerce_quality quality = quality) \/
  ((quality ∉ quality_choices) /\
   (coerce_quality quality = "1080p" \/
    exists h, h ∈ known_heights /\ coerce_quality quality = py_str_int h ++ "p")).
Proof.
  unfold coerce_quality. case_bool_decide as Hin; [left; auto|]. right.
  split; [exact Hin|].
  destruct (py_int (join_filter isdigit quality)) as [h|e]; cbn [bind try_except];
    [|left; reflexivity].
  case_bool_decide as Hh; cbn [try_except]; [right; exists h; auto | left; reflexivity].
Qed.

Lemma choice_selector (label : string) :
  label ∈ quality_choices ->
  (label = "best" /\ quality_to_format label = Ok "best") \/
  (exists h, h ∈ known_heights /\ label = py_str_int h ++ "p" /\
             quality_to_format label = Ok (format_for_height h)).
Proof.
  unfold quality_choices. intros Hin.
  apply elem_of_cons in Hin as [->|Hin];
    [right; exists 2160; split; [|split; reflexivity]|].
  { decide_member. }
  apply elem_of_cons in Hin as [->|Hin];
    [right; exists 1440; split; [|split; reflexivity]|].
  { decide_member. }
  apply elem_of_cons in Hin as [->|Hin];
    [right; exists 1080; split; [|split; reflexivity]|].
  { decide_member. }
  apply elem_of_cons in Hin as [->|Hin];
    [right; exists 720; split; [|split; reflexivity]|].
  { decide_member. }
  apply elem_of_cons in Hin as [->|Hin];
    [right; exists 480; split; [|split; reflexivity]|].
  { decide_member. }
  apply elem_of_cons in Hin as [->|Hin];
    [right; exists 360; split; [|split; reflexivity]|].
  { decide_member. }
  apply elem_of_cons in Hin as [->|Hin]; [left; split; reflexivity | inversion Hin].
Qed.

Lemma coerce_quality_choice (quality : string) :
  coerce_quality quality ∈ quality_choices.
Proof.
  destruct (coerce_quality_cases quality) as [[Hin ->]|[_ [->|[h [Hh ->]]]]].
  - exact Hin.
  - decide_member.
  - apply known_height_label, Hh.
Qed.

(** The quality the prompt settles on is always one of the seven
    labels, whatever was typed: a label is kept, digits that spell a
    known height give that height's label, anything else gives 1080p.
    Coercing again changes nothing, only the word best itself gives
    best, and the selector built from the result is the best-overall
    one or is capped at one of the six known heights. *)
Theorem coerce_quality_valid (quality : string) :
  coerce_quality quality ∈ quality_choices /\
  coerce_quality (coerce_quality quality) = coerce_quality quality /\
  (coerce_quality quality = "best" <-> quality = "best") /\
  ((coerce_quality quality = "best" /\
    quality_to_format (coerce_quality quality) = Ok "best") \/
   exists h, h ∈ known_heights /\
             coerce_quality quality = py_str_int h ++ "p" /\
             quality_to_format (coerce_quality quality) = Ok (format_for_height h)).
Proof.
  pose proof (coerce_quality_choice quality) as Hc.
  split; [exact Hc|]. split; [|split].
  - unfold coerce_quality at 1. rewrite bool_decide_eq_true_2 by exact Hc. reflexivity.
  - split.
    + destruct (coerce_quality_cases quality) as [[_ ->]|[_ [->|[h [Hh ->]]]]];
        [auto | discriminate |].
      unfold known_heights in Hh.
      repeat (apply elem_of_cons in Hh as [->|Hh]); [..|inversion Hh]; discriminate.
    + intros ->. reflexivity.
  - destruct (choice_selector _ Hc) as [[Hb Hq]|[h [Hh [Hl Hq]]]]; [left; auto|].
    right. exists h. auto.
Qed.

(** * Further properties of the URL check *)

Lemma lstrip_idem (s : string) : lstrip (lstrip s) = lstrip s.
Proof.
  induction s as [|c r IH]; [reflexivity|].
  cbn [lstrip]. destruct (isspace c) eqn:Hc; [exact IH|].
  cbn [lstrip]. rewrite Hc. reflexivity.
Qed.

Lemma rstrip_cons (c : ascii) (r : string) :
  rstrip r <> "" -> rstrip (String c r) = String c (rstrip r).
Proof. cbn [rstrip]. destruct (rstrip r); [congruence | reflexivity]. Qed.

Lemma rstrip_idem (s : string) : rstrip (rstrip s) = rstrip s.
Proof.
  induction s as [|c r IH]; [reflexivity|].
  cbn [rstrip]. destruct (rstrip r) as [|c' r'] eqn:Hr.
  - destruct (isspace c) eqn:Hc; [reflexivity|]. cbn [rstrip]. rewrite Hc. reflexivity.
  - rewrite rstrip_cons by (rewrite IH; discriminate). rewrite IH. reflexivity.
Qed.

(** Trimming on the right keeps a string that is trimmed on the left
    trimmed on the left. *)
Lemma lstrip_rstrip (s : string) : lstrip s = s -> lstrip (rstrip s) = rstrip s.
Proof.
  destruct s as [|c r]; [reflexivity|]. cbn [lstrip].
  destruct (isspace c) eqn:Hc.
  - intros Heq. exfalso.
    assert (Hlen : forall t, (String.length (lstrip t) <= String.length t)%nat).
    { induction t as [|x t IHt]; [cbn; lia|]. cbn [lstrip].
      destruct (isspace x); cbn [String.length]; lia. }
    specialize (Hlen r). rewrite Heq in Hlen. cbn [String.length] in Hlen. lia.
  - intros _. cbn [rstrip]. destruct (rstrip r); rewrite ?Hc; cbn [lstrip];
      rewrite Hc; reflexivity.
Qed.

Lemma strip_idem (s : string) : strip (strip s) = strip s.
Proof.
  unfold strip. rewrite (lstrip_rstrip (lstrip s) (lstrip_idem s)).
  apply rstrip_idem.
Qed.

Lemma rstrip_prefixed (p u : string) :
  rstrip u <> "" -> rstrip (p ++ u) = p ++ rstrip u.
Proof.
  intros Hu. induction p as [|c p IH]; [reflexivity|].
  change (rstrip (String c (p ++ u)) = String c (p ++ rstrip u)).
  rewrite rstrip_cons; rewrite IH; [reflexivity|].
  destruct p; [exact Hu | discriminate].
Qed.

Lemma ci_startswith_nonempty (s p : string) :
  p <> "" -> ci_startswith s p = true -> s <> "".
Proof. destruct p; [congruence|]. destruct s; [discriminate | discriminate]. Qed.

(** [normalize_url] as the case analysis on the trimmed string. *)
Lemma normalize_url_cases {number : Type} (E : env number) (url : string) :
  normalize_url E url = Ok (normalize E url).
Proof.
  unfold normalize_url, normalize, os_path_exists, is_existing_path.
  destruct url as [|c url'].
  - cbn [str_truthy negb]. rewrite strip_empty.
    destruct (os_stat E ""); reflexivity.
  - cbn [str_truthy negb].
    set (u := strip (String c url')). clearbody u.
    rewrite !(startswith_lower _ u) by reflexivity.
    assert (Hpre : existsb (startswith (lower u)) url_prefixes
                   = existsb (ci_startswith u) url_prefixes).
    { unfold url_prefixes. cbn [existsb].
      rewrite !(startswith_lower _ u) by reflexivity. reflexivity. }
    rewrite Hpre.
    destruct (os_stat E u); cbn [bind try_except is_ok]; [reflexivity|].
    destruct (ci_startswith u "http://" || ci_startswith u "https://"),
      (existsb (ci_startswith u) url_prefixes); reflexivity.
Qed.

(** An accepted URL is not empty. *)
Lemma normalized_url_nonempty {number : Type} (E : env number) (url u : string) :
  normalize_url E url = Ok (Some u) -> str_truthy u = true.
Proof.
  rewrite normalize_url_cases. unfold normalize.
  destruct (is_existing_path E (strip url)); [discriminate|].
  destruct (ci_startswith (strip url) "http://"
            || ci_startswith (strip url) "https://") eqn:Hscheme.
  - intros [= <-]. destruct (strip url); [|reflexivity].
    cbn in Hscheme. discriminate.
  - destruct (existsb (ci_startswith (strip url)) url_prefixes); [|discriminate].
    intros [= <-]. reflexivity.
Qed.

(** A URL that [normalize_url] accepts starts with a scheme, has no
    whitespace around it, is not empty, and is accepted unchanged when
    it is normalized again, unless a path of that name exists. *)
Theorem normalized_url_is_fixed_point {number : Type} (E : env number)
    (url u : string) :
  normalize_url E url = Ok (Some u) ->
  ci_startswith u "http://" || ci_startswith u "https://" = true /\
  strip u = u /\ u <> "" /\
  (is_existing_path E u = false -> normalize_url E u = Ok (Some u)).
Proof.
  rewrite normalize_url_cases. unfold normalize. intros Hn.
  assert (Hgoal : ci_startswith u "http://" || ci_startswith u "https://" = true
                  /\ strip u = u /\ u <> "").
  { destruct (is_existing_path E (strip url)); [discriminate|].
    destruct (ci_startswith (strip url) "http://"
              || ci_startswith (strip url) "https://") eqn:Hscheme.
    - injection Hn as <-. split; [exact Hscheme|]. split; [apply strip_idem|].
      apply orb_prop in Hscheme as [Hs|Hs];
        (eapply ci_startswith_nonempty; [|exact Hs]; discriminate).
    - destruct (existsb (ci_startswith (strip url)) url_prefixes) eqn:Hpre;
        [|discriminate].
      injection Hn as <-.
      assert (Hne : strip url <> "").
      { apply existsb_exists in Hpre as [p [Hp Hs]].
        unfold url_prefixes in Hp. cbn [In] in Hp.
        destruct Hp as [<-|[<-|[<-|[<-|[]]]]];
          (eapply ci_startswith_nonempty; [|exact Hs]; discriminate). }
      split; [|split; [|discriminate]].
      + destruct (strip url); reflexivity.
      + unfold strip at 1. change (lstrip ("https://" ++ strip url))
          with ("https://" ++ strip url).
        assert (Hr : rstrip (strip url) = strip url)
          by (unfold strip; apply rstrip_idem).
        rewrite rstrip_prefixed by (rewrite Hr; exact Hne).
        rewrite Hr. reflexivity. }
  destruct Hgoal as [Hscheme [Hstrip Hne]].
  repeat split; try assumption.
  intros Hexists. rewrite normalize_url_cases. unfold normalize.
  rewrite Hstrip, Hexists, Hscheme. reflexivity.
Qed.

(** * Further properties of the prompt *)

Section PromptProps.
Context {number : Type} `{PyNumber number} (E : env number).

Lemma url_loop_rejects (bad : list string) (w : world) (tail : list string) :
  Forall (invalid_line E) bad ->
  stdin w = (bad ++ tail)%list ->
  url_loop E (stdin w) w
  = url_loop E tail
      {| config_file := config_file w;
         stdout := (stdout w ++ reprompts bad)%list;
         stderr := stderr w; stdin := tail |}.
Proof.
  intros Hbad. revert w. induction Hbad as [|line bad Hline _ IH]; intros w Hin.
  - cbn [app] in Hin. unfold reprompts. cbn [map concat].
    rewrite app_nil_r, Hin. destruct w; cbn in *; subst; reflexivity.
  - cbn [app] in Hin. rewrite Hin at 1. rewrite url_loop_turn, input_reads, Hin.
    unfold invalid_line in Hline. rewrite Hline. cbn [opt_truthy].
    cbn [print write_stdout snd].
    set (w1 := {| config_file := _ |}).
    specialize (IH w1 eq_refl). subst w1.
    cbn [config_file stdout stderr stdin] in IH |- *. rewrite IH.
    unfold reprompts. cbn [map concat].
    rewrite <- !app_assoc. reflexivity.
Qed.

Lemma prompt_url_first_valid_eq (bad rest : list string) (good u : string) (w : world) :
  stdin w = (bad ++ good :: rest)%list ->
  Forall (invalid_line E) bad ->
  normalize_url E (strip good) = Ok (Some u) ->
  prompt_url E w
  = (Ok u,
     {| config_file := config_file w;
        stdout := (stdout w ++ reprompts bad ++ ["Video URL: "])%list;
        stderr := stderr w; stdin := rest |}).
Proof.
  intros Hin Hbad Hgood. unfold prompt_url.
  rewrite (url_loop_rejects bad w (good :: rest) Hbad Hin).
  rewrite url_loop_turn, input_reads. cbn [stdin]. rewrite Hgood.
  cbn [opt_truthy]. rewrite (normalized_url_nonempty E _ _ Hgood).
  cbn [config_file stdout stderr default]. rewrite <- app_assoc. reflexivity.
Qed.

(** The URL prompt skips every rejected line, printing the guidance for
    each, and returns the first accepted line normalized; the lines
    after it are left to be read. *)
Theorem prompt_url_first_valid (bad rest : list string) (good u : string) (w : world) :
  stdin w = (bad ++ good :: rest)%list ->
  Forall (invalid_line E) bad ->
  normalize_url E (strip good) = Ok (Some u) ->
  prompt_url E w
  = (Ok u,
     {| config_file := config_file w;
        stdout := (stdout w ++ reprompts bad ++ ["Video URL: "])%list;
        stderr := stderr w; stdin := rest |}) /\
  str_truthy u = true.
Proof.
  intros Hin Hbad Hgood.
  split; [|exact (normalized_url_nonempty E _ _ Hgood)].
  unfold prompt_url.
  rewrite (url_loop_rejects bad w (good :: rest) Hbad Hin).
  rewrite url_loop_turn, input_reads. cbn [stdin]. rewrite Hgood.
  cbn [opt_truthy]. rewrite (normalized_url_nonempty E _ _ Hgood).
  cbn [config_file stdout stderr default]. rewrite <- app_assoc. reflexivity.
Qed.

Lemma prompt_url_exhausted (w : world) :
  Forall (invalid_line E) (stdin w) ->
  prompt_url E w
  = (Raise EOF_error,
     {| config_file := config_file w;
        stdout := (stdout w ++ reprompts (stdin w) ++ ["Video URL: "])%list;
        stderr := stderr w; stdin := [] |}).
Proof.
  intros Hbad. unfold prompt_url.
  rewrite (url_loop_rejects (stdin w) w [] Hbad) by (rewrite app_nil_r; reflexivity).
  rewrite url_loop_turn, input_reads. cbn [stdin config_file stdout stderr].
  rewrite <- app_assoc. reflexivity.
Qed.

(** When the prompt runs (the flag is given or no URL is) and the input
    ends before a line is accepted, [main] returns no exit code:
    [EOFError] escapes it, after the header, the prompt and the
    guidance for each rejected line; nothing is written to the error
    stream or to the preference file. *)
Theorem main_prompt_end_of_input (a : args) (w : world) :
  args_interactive a || negb (opt_truthy (args_url a)) = true ->
  Forall (invalid_line E) (stdin w) ->
  main E a w
  = (Raise EOF_error,
     {| config_file := config_file w;
        stdout := (stdout w ++ prompt_header ++ reprompts (stdin w)
                     ++ ["Video URL: "])%list;
        stderr := stderr w; stdin := [] |}).
Proof.
  intros Hmode Hbad. unfold main. unfold mbind at 1.
  rewrite load_config_loaded, Hmode.
  unfold mbind at 1. unfold _interactive_prompt.
  unfold mbind at 1, print at 1, write_stdout at 1.
  unfold mbind at 1, print at 1, write_stdout at 1.
  unfold mbind at 1.
  set (w1 := {| config_file := _ |}).
  assert (Hin : Forall (invalid_line E) (stdin w1)) by exact Hbad.
  rewrite (prompt_url_exhausted w1 Hin). subst w1.
  cbn [config_file stdout stderr stdin]. unfold prompt_header.
  rewrite <- !app_assoc. reflexivity.
Qed.



Lemma interactive_prompt_three_lines (m : gmap string pyval) (w : world)
    (good dline qline qraw u : string) (rest : list string) :
  stdin w = good :: dline :: qline :: rest ->
  normalize_url E (strip good) = Ok (Some u) ->
  py_makedirs E
    (str_or (strip dline)
       (default (PStr (path_join E (home_dir E) "Downloads"))
          (m !! "download_location"))) = Ok tt ->
  str_or (strip qline) (default (PStr "1080p") (m !! "quality")) = PStr qraw ->
  _interactive_prompt E (PDict m) w
  = (Ok (Some (u,
               str_or (strip dline)
                 (default (PStr (path_join E (home_dir E) "Downloads"))
                    (m !! "download_location")),
               coerce_quality (lower qraw))),
     {| config_file := config_file w;
        stdout :=
          (stdout w ++ prompt_header
             ++ ["Video URL: ";
                 ("Download directory ["
                    ++ py_str E (default (PStr (path_join E (home_dir E) "Downloads"))
                                   (m !! "download_location"))
                    ++ "]: ")%string;
                 ("Available qualities: 2160p, 1440p, 1080p, 720p, 480p, 360p, best"
                    ++ NL)%string;
                 ("Quality [" ++ py_str E (default (PStr "1080p") (m !! "quality"))
                    ++ "]: ")%string])%list;
        stderr := stderr w; stdin := rest |}).
Proof.
  intros Hin Hgood Hmk Hq. unfold _interactive_prompt.
  unfold mbind at 1, print at 1, write_stdout at 1.
  unfold mbind at 1, print at 1, write_stdout at 1.
  unfold mbind at 1.
  set (w1 := {| config_file := _ |}).
  assert (Hin1 : stdin w1 = ([] ++ good :: dline :: qline :: rest)%list) by exact Hin.
  rewrite (prompt_url_first_valid_eq [] _ good u w1 Hin1 ltac:(constructor) Hgood).
  unfold mbind at 1, lift at 1, default_download_dir. cbn [py_get].
  unfold mbind at 1. rewrite input_reads. cbn [stdin].
  unfold mbind at 1, try_catch at 1, mbind at 1, lift at 1. rewrite Hmk.
  unfold ret at 1. unfold mbind at 1, lift at 1. cbn [py_get].
  unfold mbind at 1, print at 1, write_stdout at 1.
  unfold mbind at 1. rewrite input_reads. cbn [stdin].
  unfold mbind at 1, lift at 1. rewrite Hq. cbn [py_lower]. unfold ret.
  subst w1. cbn [config_file stdout stderr stdin]. unfold prompt_header, reprompts.
  cbn [map concat]. rewrite <- !app_assoc. reflexivity.
Qed.

(** The prompt on three lines of input, the first of them an accepted
    URL: an empty directory line takes the persisted directory or the
    platform default, an empty quality line takes the persisted quality
    or 1080p, and the quality is lowered and coerced to a label.  The
    three lines are consumed and the three prompts are written. *)
Theorem interactive_prompt_defaults (m : gmap string pyval) (w : world)
    (good dline qline qraw u : string) (rest : list string) :
  stdin w = good :: dline :: qline :: rest ->
  normalize_url E (strip good) = Ok (Some u) ->
  py_makedirs E
    (str_or (strip dline)
       (default (PStr (path_join E (home_dir E) "Downloads"))
          (m !! "download_location"))) = Ok tt ->
  str_or (strip qline) (default (PStr "1080p") (m !! "quality")) = PStr qraw ->
  _interactive_prompt E (PDict m) w
  = (Ok (Some (u,
               str_or (strip dline)
                 (default (PStr (path_join E (home_dir E) "Downloads"))
                    (m !! "download_location")),
               coerce_quality (lower qraw))),
     {| config_file := config_file w;
        stdout :=
          (stdout w ++ prompt_header
             ++ ["Video URL: ";
                 ("Download directory ["
                    ++ py_str E (default (PStr (path_join E (home_dir E) "Downloads"))
                                   (m !! "download_location"))
                    ++ "]: ")%string;
                 ("Available qualities: 2160p, 1440p, 1080p, 720p, 480p, 360p, best"
                    ++ NL)%string;
                 ("Quality [" ++ py_str E (default (PStr "1080p") (m !! "quality"))
                    ++ "]: ")%string])%list;
        stderr := stderr w; stdin := rest |}).
Proof. apply interactive_prompt_three_lines. Qed.

Lemma interactive_prompt_no_directory (m : gmap string pyval) (w : world)
    (good dline u : string) (rest : list string) (e : exn) :
  stdin w = good :: dline :: rest ->
  normalize_url E (strip good) = Ok (Some u) ->
  py_makedirs E
    (str_or (strip dline)
       (default (PStr (path_join E (home_dir E) "Downloads"))
          (m !! "download_location"))) = Raise e ->
  _interactive_prompt E (PDict m) w
  = (Ok None,
     {| config_file := config_file w;
        stdout :=
          (stdout w ++ prompt_header
             ++ ["Video URL: ";
                 ("Download directory ["
                    ++ py_str E (default (PStr (path_join E (home_dir E) "Downloads"))
                                   (m !! "download_location"))
                    ++ "]: ")%string;
                 (("Invalid directory '"
                     ++ py_str E
                          (str_or (strip dline)
                             (default (PStr (path_join E (home_dir E) "Downloads"))
                                (m !! "download_location")))
                     ++ "': " ++ exn_msg e) ++ NL)%string])%list;
        stderr := stderr w; stdin := rest |}).
Proof.
  intros Hin Hgood Hmk. unfold _interactive_prompt.
  unfold mbind at 1, print at 1, write_stdout at 1.
  unfold mbind at 1, print at 1, write_stdout at 1.
  unfold mbind at 1.
  set (w1 := {| config_file := _ |}).
  assert (Hin1 : stdin w1 = ([] ++ good :: dline :: rest)%list) by exact Hin.
  rewrite (prompt_url_first_valid_eq [] _ good u w1 Hin1 ltac:(constructor) Hgood).
  unfold mbind at 1, lift at 1, default_download_dir. cbn [py_get].
  unfold mbind at 1. rewrite input_reads. cbn [stdin].
  unfold mbind at 1, try_catch at 1, mbind at 1, lift at 1. rewrite Hmk.
  unfold mbind at 1, print at 1, write_stdout at 1. unfold ret.
  subst w1. cbn [config_file stdout stderr stdin]. unfold prompt_header, reprompts.
  cbn [map concat]. rewrite <- !app_assoc. reflexivity.
Qed.

End PromptProps.

(** * Further properties of [main] *)

Section MainRuns.
Context {number : Type} `{PyNumber number} (E : env number).

(** The download step, once the directory is made and the quality is a
    string, by the outcome of the engine and the type of the loaded
    preferences. *)
Lemma run_download_run (a : args) (config : pyval) (url d q : string) (w : world) :
  os_makedirs E d = Ok tt ->
  run_download E a config url (PStr d) (PStr q) w
  = match snd (engine E (download_opts E a d q) url) with
    | Raise e =>
        (Ok 1,
         {| config_file := config_file w;
            stdout := (stdout w ++ announcement d q ++ rendering E a url d q)%list;
            stderr := (stderr w ++ [failure_line e])%list; stdin := stdin w |})
    | Ok _ =>
        match py_setitem config "download_location" (PStr d) with
        | Raise e =>
            (Ok 1,
             {| config_file := config_file w;
                stdout := (stdout w ++ announcement d q ++ rendering E a url d q
                             ++ completion E a url d q)%list;
                stderr := (stderr w ++ [failure_line e])%list; stdin := stdin w |})
        | Ok config1 =>
            (Ok 0,
             {| config_file :=
                  file_after_save E
                    (match py_setitem config1 "quality" (PStr q) with
                     | Ok config2 => config2
                     | Raise _ => config1
                     end) (config_file w);
                stdout := (stdout w ++ announcement d q ++ rendering E a url d q
                             ++ completion E a url d q)%list;
                stderr := stderr w; stdin := stdin w |})
        end
    end.
Proof.
  intros Hmk. unfold run_download.
  unfold mbind at 1, try_catch at 1, mbind at 1, lift at 1.
  cbn [py_makedirs]. rewrite Hmk. unfold ret at 1.
  unfold mbind at 1, lift at 1. rewrite quality_to_format_resolve.
  unfold mbind at 1, lift at 1.
  unfold mbind at 1, lift at 1.
  unfold mbind at 1, print at 1, write_stdout at 1.
  unfold mbind at 1, print at 1, write_stdout at 1.
  unfold rendering, completion. fold (download_opts E a d q).
  unfold try_catch, download_and_save.
  destruct (engine E (download_opts E a d q) url) as [events outcome]. cbn [fst snd].
  destruct (run_hooks init_progress events) as [progress1 out1]. cbn [fst snd].
  destruct (_println progress1 "Download completed successfully.") as [progress2 out2].
  cbn [snd]. unfold mbind at 1, write_stdout at 1. unfold mbind at 1, lift at 1.
  destruct outcome as [[]|e].
  - unfold mbind at 1, write_stdout at 1. unfold mbind at 1, lift at 1.
    destruct config as [| | | | |l|m]; cbn [py_setitem];
      try (rewrite download_failed_line; cbn [config_file stdout stderr stdin py_str];
           unfold announcement; rewrite <- !app_assoc; reflexivity).
    unfold mbind at 1, lift at 1. unfold mbind at 1.
    rewrite save_config_saved. unfold ret.
    cbn [config_file stdout stderr stdin py_str].
    unfold announcement; rewrite <- !app_assoc; reflexivity.
  - rewrite download_failed_line. cbn [config_file stdout stderr stdin py_str].
    unfold announcement; rewrite <- !app_assoc; reflexivity.
Qed.

Lemma run_download_no_directory (a : args) (config : pyval) (url : string)
    (out_dir quality : pyval) (w : world) (e : exn) :
  py_makedirs E out_dir = Raise e ->
  run_download E a config url out_dir quality w
  = (Ok 2,
     {| config_file := config_file w; stdout := stdout w;
        stderr := (stderr w
                     ++ [(("Error: invalid output directory: " ++ exn_msg e)
                            ++ NL)%string])%list;
        stdin := stdin w |}).
Proof.
  intros Hmk. unfold run_download.
  unfold mbind at 1, try_catch at 1, mbind at 1, lift at 1. rewrite Hmk.
  reflexivity.
Qed.

Lemma makedirs_ok_string (out_dir : pyval) :
  py_makedirs E out_dir = Ok tt ->
  exists d, out_dir = PStr d /\ os_makedirs E d = Ok tt.
Proof. destruct out_dir; try discriminate. intros Hmk. eauto. Qed.

Lemma run_download_not_a_string (a : args) (config : pyval) (url : string)
    (out_dir quality : pyval) (w : world) :
  py_makedirs E out_dir = Ok tt ->
  (forall q, quality <> PStr q) ->
  run_download E a config url out_dir quality w
  = (Raise (no_attribute quality "lower"), w).
Proof.
  intros Hmk Hq. unfold run_download.
  unfold mbind at 1, try_catch at 1, mbind at 1, lift at 1. rewrite Hmk.
  unfold ret at 1. unfold mbind at 1, lift at 1.
  destruct quality; try reflexivity. exfalso. eapply Hq. reflexivity.
Qed.

(** Every outcome of the download step: it returns 0, or it returns 1
    or 2 or raises and then the preference file is as it was. *)
Lemma run_download_outcome (a : args) (config : pyval) (url : string)
    (out_dir quality : pyval) (w : world) :
  fst (run_download E a config url out_dir quality w) = Ok 0 \/
  ((fst (run_download E a config url out_dir quality w) = Ok 1 \/
    fst (run_download E a config url out_dir quality w) = Ok 2 \/
    exists e, fst (run_download E a config url out_dir quality w) = Raise e) /\
   config_file (snd (run_download E a config url out_dir quality w))
   = config_file w).
Proof.
  destruct (py_makedirs E out_dir) as [[]|e] eqn:Hmk.
  2:{ rewrite (run_download_no_directory _ _ _ _ _ _ _ Hmk). right. cbn. auto. }
  destruct (makedirs_ok_string _ Hmk) as [d [-> Hd]].
  destruct quality as [| | | |q| |];
    try (rewrite run_download_not_a_string by (exact Hmk || discriminate);
         right; cbn; eauto).
  rewrite (run_download_run a config url d q w Hd).
  destruct (snd (engine E (download_opts E a d q) url)) as [[]|e];
    [destruct (py_setitem config "download_location" (PStr d))|];
    cbn [fst snd config_file]; auto.
Qed.

(** *** Runs without the prompt *)

Lemma main_cli_dict (a : args) (w : world) (m : gmap string pyval) (u : string) :
  args_interactive a || negb (opt_truthy (args_url a)) = false ->
  loaded_record (config_file w) = PDict m ->
  normalize_url E (default "" (args_url a)) = Ok (Some u) ->
  main E a w
  = run_download E a (PDict m) u (resolved_out_dir E a m) (resolved_quality a m) w.
Proof.
  intros Hmode Hm Hu. unfold main. unfold mbind at 1.
  rewrite load_config_loaded, Hmode, Hm.
  unfold mbind at 1, lift at 1. rewrite Hu. cbn [opt_truthy].
  rewrite (normalized_url_nonempty E _ _ Hu). cbn [negb default].
  unfold resolved_out_dir, resolved_quality, default_download_dir.
  assert (Hres : forall (b : bool) (s : string) (r : result pyval) (w0 : world),
             (if b then ret (PStr s) else lift r) w0
             = ((if b then Ok (PStr s) else r), w0))
    by (intros [] ? ? ?; reflexivity).
  unfold mbind at 1. rewrite Hres. cbn [py_get].
  destruct (opt_truthy (args_output_dir a)); unfold mbind at 1; rewrite Hres;
    destruct (opt_truthy (args_quality a)); reflexivity.
Qed.


(** A URL that [normalize_url] rejects ends the run at once: [main]
    returns 2 after one line on the error stream, and nothing else is
    written, read or saved. *)
Theorem invalid_url_exit_2 (a : args) (w : world) :
  args_interactive a || negb (opt_truthy (args_url a)) = false ->
  normalize_url E (default "" (args_url a)) = Ok None ->
  main E a w
  = (Ok 2,
     {| config_file := config_file w; stdout := stdout w;
        stderr :=
          (stderr w
             ++ [("Error: invalid URL. Provide a URL starting with http(s) or run with --interactive."
                    ++ NL)%string])%list;
        stdin := stdin w |}).
Proof.
  intros Hmode Hu. unfold main. unfold mbind at 1.
  rewrite load_config_loaded, Hmode.
  unfold mbind at 1, lift at 1. rewrite Hu. reflexivity.
Qed.

(** A directory that cannot be made ends the run with exit code 2 and
    one line on the error stream; this covers a persisted
    [download_location] that is not a string.  The engine is not
    called and nothing is saved. *)
Theorem unusable_directory_exit_2 (a : args) (w : world) (m : gmap string pyval)
    (u : string) (e : exn) :
  args_interactive a || negb (opt_truthy (args_url a)) = false ->
  loaded_record (config_file w) = PDict m ->
  normalize_url E (default "" (args_url a)) = Ok (Some u) ->
  py_makedirs E (resolved_out_dir E a m) = Raise e ->
  main E a w
  = (Ok 2,
     {| config_file := config_file w; stdout := stdout w;
        stderr := (stderr w
                     ++ [(("Error: invalid output directory: " ++ exn_msg e)
                            ++ NL)%string])%list;
        stdin := stdin w |}).
Proof.
  intros Hmode Hm Hu Hmk. rewrite (main_cli_dict a w m u Hmode Hm Hu).
  apply run_download_no_directory. exact Hmk.
Qed.

(** A run without the prompt that succeeds: the directory and the
    quality are the flag, else the persisted value, else the default;
    the engine is called with the selector of that quality and the
    normalized URL; standard output carries the announcement, the
    rendered progress and the completion message; the file is what
    [save] makes of the loaded record with the two fields set. *)
Theorem cli_run_succeeds (a : args) (w : world) (m : gmap string pyval)
    (u d q : string) :
  args_interactive a || negb (opt_truthy (args_url a)) = false ->
  loaded_record (config_file w) = PDict m ->
  normalize_url E (default "" (args_url a)) = Ok (Some u) ->
  resolved_out_dir E a m = PStr d ->
  os_makedirs E d = Ok tt ->
  resolved_quality a m = PStr q ->
  snd (engine E (download_opts E a d q) u) = Ok tt ->
  main E a w
  = (Ok 0,
     {| config_file :=
          file_after_save E (PDict (updated_record m d q)) (config_file w);
        stdout := (stdout w ++ announcement d q ++ rendering E a u d q
                     ++ completion E a u d q)%list;
        stderr := stderr w; stdin := stdin w |}).
Proof.
  intros Hmode Hm Hu Hd Hmk Hq Heng.
  rewrite (main_cli_dict a w m u Hmode Hm Hu), Hd, Hq.
  rewrite (run_download_run a (PDict m) u d q w Hmk), Heng. reflexivity.
Qed.


(** A persisted quality that is not a string, used because no [-q] is
    given, makes [main] raise [AttributeError] once the directory is
    made: no exit code is returned, and nothing is written. *)
Theorem persisted_quality_not_a_string (a : args) (w : world)
    (m : gmap string pyval) (u : string) (v : pyval) :
  args_interactive a || negb (opt_truthy (args_url a)) = false ->
  loaded_record (config_file w) = PDict m ->
  normalize_url E (default "" (args_url a)) = Ok (Some u) ->
  opt_truthy (args_quality a) = false ->
  m !! "quality" = Some v ->
  (forall s, v <> PStr s) ->
  py_makedirs E (resolved_out_dir E a m) = Ok tt ->
  main E a w = (Raise (no_attribute v "lower"), w).
Proof.
  intros Hmode Hm Hu Hflag Hv Hstr Hmk.
  rewrite (main_cli_dict a w m u Hmode Hm Hu).
  assert (Hq : resolved_quality a m = v)
    by (unfold resolved_quality; rewrite Hflag, Hv; reflexivity).
  rewrite Hq. apply run_download_not_a_string; assumption.
Qed.

(** *** Every run *)

(** Whatever the arguments, the input and the environment, [main]
    returns 0, 1 or 2 or lets an exception escape, and unless it
    returns 0 the preference file is left as it was. *)
Theorem preferences_change_only_on_exit_0 (a : args) (w : world) :
  fst (main E a w) = Ok 0 \/
  ((fst (main E a w) = Ok 1 \/ fst (main E a w) = Ok 2 \/
    exists e, fst (main E a w) = Raise e) /\
   config_file (snd (main E a w)) = config_file w).
Proof.
  destruct (main E a w) as [res w'] eqn:Hmain. cbn [fst snd].
  assert (Hstep : forall config url out_dir quality w1,
            config_file w1 = config_file w ->
            run_download E a config url out_dir quality w1 = (res, w') ->
            res = Ok 0 \/
            ((res = Ok 1 \/ res = Ok 2 \/ exists e, res = Raise e) /\
             config_file w' = config_file w)).
  { intros config url out_dir quality w1 Hfile Hrun.
    pose proof (run_download_outcome a config url out_dir quality w1) as Ho.
    rewrite Hrun, Hfile in Ho. exact Ho. }
  revert Hmain. unfold main. unfold mbind at 1. rewrite load_config_loaded.
  set (config := loaded_record (config_file w)).
  destruct (args_interactive a || negb (opt_truthy (args_url a))).
  - unfold mbind at 1.
    pose proof (keeps_interactive_prompt E config w) as Hkeep.
    destruct (_interactive_prompt E config w) as [[info|e] w1]; cbn [snd] in Hkeep.
    2:{ intros [= <- <-]. right. split; [right; right; eexists; reflexivity | exact Hkeep]. }
    destruct info as [[[url out_dir] quality]|].
    + apply Hstep. exact Hkeep.
    + intros [= <- <-]. right. split; [right; left; reflexivity | exact Hkeep].
  - unfold mbind at 1, lift at 1.
    destruct (normalize_url E (default "" (args_url a))) as [url|e].
    2:{ intros [= <- <-]. right. split; [right; right; eexists|]; reflexivity. }
    destruct (negb (opt_truthy url)).
    { intros [= <- <-]. right. split; [right; left|]; reflexivity. }
    assert (Hres : forall (b : bool) (s : string) (r : result pyval) (w0 : world),
               (if b then ret (PStr s) else lift r) w0
               = ((if b then Ok (PStr s) else r), w0))
      by (intros [] ? ? ?; reflexivity).
    unfold mbind at 1. rewrite Hres.
    destruct (if opt_truthy (args_output_dir a) then _ else _) as [out_dir|e].
    2:{ intros [= <- <-]. right. split; [right; right; eexists|]; reflexivity. }
    unfold mbind at 1. rewrite Hres.
    destruct (if opt_truthy (args_quality a) then _ else _) as [quality|e].
    2:{ intros [= <- <-]. right. split; [right; right; eexists|]; reflexivity. }
    apply Hstep. reflexivity.
Qed.
End MainRuns.

(** *** Runs with the prompt *)

Section PromptRuns.
Context {number : Type} `{PyNumber number} (E : env number).

Lemma main_prompt_dict (a : args) (w : world) (m : gmap string pyval) :
  args_interactive a || negb (opt_truthy (args_url a)) = true ->
  loaded_record (config_file w) = PDict m ->
  main E a w
  = match _interactive_prompt E (PDict m) w with
    | (Ok (Some (url, out_dir, quality)), w1) =>
        run_download E a (PDict m) url out_dir (PStr quality) w1
    | (Ok None, w1) => (Ok 2, w1)
    | (Raise e, w1) => (Raise e, w1)
    end.
Proof.
  intros Hmode Hm. unfold main. unfold mbind at 1.
  rewrite load_config_loaded, Hmode, Hm. unfold mbind at 1.
  destruct (_interactive_prompt E (PDict m) w) as [[[[[url out_dir] quality]|]|e] w1];
    reflexivity.
Qed.

(** When the prompt runs and the directory chosen at it cannot be made,
    the prompt says so on standard output, not on the error stream, and
    [main] returns 2 without asking for the quality: the lines after
    the directory are left unread, the engine is not called and
    nothing is saved. *)
Theorem prompt_run_invalid_directory (a : args) (w : world) (m : gmap string pyval)
    (good dline u : string) (rest : list string) (e : exn) :
  args_interactive a || negb (opt_truthy (args_url a)) = true ->
  loaded_record (config_file w) = PDict m ->
  stdin w = good :: dline :: rest ->
  normalize_url E (strip good) = Ok (Some u) ->
  py_makedirs E
    (str_or (strip dline)
       (default (PStr (path_join E (home_dir E) "Downloads"))
          (m !! "download_location"))) = Raise e ->
  main E a w
  = (Ok 2,
     {| config_file := config_file w;
        stdout :=
          (stdout w ++ prompt_header
             ++ ["Video URL: ";
                 ("Download directory ["
                    ++ py_str E (default (PStr (path_join E (home_dir E) "Downloads"))
                                   (m !! "download_location"))
                    ++ "]: ")%string;
                 (("Invalid directory '"
                     ++ py_str E
                          (str_or (strip dline)
                             (default (PStr (path_join E (home_dir E) "Downloads"))
                                (m !! "download_location")))
                     ++ "': " ++ exn_msg e) ++ NL)%string])%list;
        stderr := stderr w; stdin := rest |}).
Proof.
  intros Hmode Hm Hin Hgood Hmk. rewrite (main_prompt_dict a w m Hmode Hm).
  rewrite (interactive_prompt_no_directory E m w good dline u rest e Hin Hgood Hmk).
  reflexivity.
Qed.

(** A run with the prompt that succeeds, on three lines of input: the
    URL, the directory and the quality all come from the prompt (a URL
    given on the command line with [--interactive] is not used), the
    download step runs on the coerced label, and the file is what
    [save] makes of the loaded record with the two fields set. *)
Theorem prompt_run_succeeds (a : args) (w : world) (m : gmap string pyval)
    (good dline qline qraw u d : string) (rest : list string) :
  args_interactive a || negb (opt_truthy (args_url a)) = true ->
  loaded_record (config_file w) = PDict m ->
  stdin w = good :: dline :: qline :: rest ->
  normalize_url E (strip good) = Ok (Some u) ->
  str_or (strip dline)
    (default (PStr (path_join E (home_dir E) "Downloads"))
       (m !! "download_location")) = PStr d ->
  os_makedirs E d = Ok tt ->
  str_or (strip qline) (default (PStr "1080p") (m !! "quality")) = PStr qraw ->
  snd (engine E (download_opts E a d (coerce_quality (lower qraw))) u) = Ok tt ->
  main E a w
  = (Ok 0,
     {| config_file :=
          file_after_save E
            (PDict (updated_record m d (coerce_quality (lower qraw))))
            (config_file w);
        stdout :=
          (stdout w ++ prompt_header
             ++ ["Video URL: ";
                 ("Download directory ["
                    ++ py_str E (default (PStr (path_join E (home_dir E) "Downloads"))
                                   (m !! "download_location"))
                    ++ "]: ")%string;
                 ("Available qualities: 2160p, 1440p, 1080p, 720p, 480p, 360p, best"
                    ++ NL)%string;
                 ("Quality [" ++ py_str E (default (PStr "1080p") (m !! "quality"))
                    ++ "]: ")%string]
             ++ announcement d (coerce_quality (lower qraw))
             ++ rendering E a u d (coerce_quality (lower qraw))
             ++ completion E a u d (coerce_quality (lower qraw)))%list;
        stderr := stderr w; stdin := rest |}).
Proof.
  intros Hmode Hm Hin Hgood Hd Hmk Hq Heng. rewrite (main_prompt_dict a w m Hmode Hm).
  assert (Hmk' : py_makedirs E
                   (str_or (strip dline)
                      (default (PStr (path_join E (home_dir E) "Downloads"))
                         (m !! "download_location"))) = Ok tt)
    by (rewrite Hd; exact Hmk).
  rewrite (interactive_prompt_three_lines E m w good dline qline qraw u rest
             Hin Hgood Hmk' Hq), Hd.
  rewrite (run_download_run E a (PDict m) u d _ _ Hmk), Heng.
  cbn [py_setitem config_file stdout stderr stdin].
  unfold updated_record. rewrite <- !app_assoc. reflexivity.
Qed.
End PromptRuns.

(** * The percent of binary64 events *)







(** * Sample runs of the further properties *)

Lemma same_percent_run_writes_once_witness :
  Forall (fun d : event float =>
            status d = Some "downloading" /\ event_percent d = Some 50)
    [half_event; half_event] /\
  (length (snd (run_hooks init_progress [half_event; half_event])) <= 1)%nat /\
  (50 = _last_shown init_progress ->
   snd (run_hooks init_progress [half_event; half_event]) = []) /\
  ([half_event; half_event] <> [] ->
   _last_shown (fst (run_hooks init_progress [half_event; half_event])) = 50).
Proof.
  assert (Hall : Forall (fun d : event float =>
                           status d = Some "downloading" /\ event_percent d = Some 50)
                   [half_event; half_event])
    by (repeat (constructor; [split; reflexivity|]); constructor).
  split; [exact Hall|].
  exact (same_percent_run_writes_once init_progress [half_event; half_event] 50 Hall).
Defined.

Lemma message_never_on_progress_line_witness :
  is_open "Download completed successfully." = false /\
  separated false
    (snd (run_hooks init_progress [half_event; finished_event])
       ++ snd (_println (fst (run_hooks init_progress [half_event; finished_event]))
                 "Download completed successfully.")) = true /\
  open_after false
    (snd (run_hooks init_progress [half_event; finished_event])
       ++ snd (_println (fst (run_hooks init_progress [half_event; finished_event]))
                 "Download completed successfully.")) = false.
Proof.
  split; [reflexivity|].
  apply (message_never_on_progress_line [half_event; finished_event]). reflexivity.
Defined.

Lemma human_speed_scaled_witness :
  truthy 1536%float = true /\
  exists k : nat,
    (k <= 3)%nat /\
    _human_speed (Some 1536%float)
    = format_2f (div_times k 1536%float) ++ " " ++ nth k speed_units "" /\
    (forall j : nat, (j < k)%nat -> ge_1024 (div_times j 1536%float) = true) /\
    ((k < 3)%nat -> ge_1024 (div_times k 1536%float) = false).
Proof.
  split; [reflexivity|]. apply (human_speed_scaled 1536%float). reflexivity.
Defined.


Lemma normalized_url_is_fixed_point_witness :
  normalize_url quiet_env "  youtu.be/x " = Ok (Some "https://youtu.be/x") /\
  ci_startswith "https://youtu.be/x" "http://"
    || ci_startswith "https://youtu.be/x" "https://" = true /\
  strip "https://youtu.be/x" = "https://youtu.be/x" /\
  "https://youtu.be/x" <> "" /\
  (is_existing_path quiet_env "https://youtu.be/x" = false ->
   normalize_url quiet_env "https://youtu.be/x" = Ok (Some "https://youtu.be/x")).
Proof.
  split; [reflexivity|].
  apply (normalized_url_is_fixed_point quiet_env "  youtu.be/x "). reflexivity.
Defined.

Lemma prompt_url_first_valid_witness :
  stdin (world_with Absent ["nonsense"; ""; "youtu.be/x"; "/tmp/x"])
  = (["nonsense"; ""] ++ "youtu.be/x" :: ["/tmp/x"])%list /\
  Forall (invalid_line quiet_env) ["nonsense"; ""] /\
  normalize_url quiet_env (strip "youtu.be/x") = Ok (Some "https://youtu.be/x") /\
  prompt_url quiet_env (world_with Absent ["nonsense"; ""; "youtu.be/x"; "/tmp/x"])
  = (Ok "https://youtu.be/x",
     {| config_file := Absent;
        stdout := ([] ++ reprompts ["nonsense"; ""] ++ ["Video URL: "])%list;
        stderr := []; stdin := ["/tmp/x"] |}) /\
  str_truthy "https://youtu.be/x" = true.
Proof.
  assert (Hbad : Forall (invalid_line quiet_env) ["nonsense"; ""])
    by (repeat (constructor; [reflexivity|]); constructor).
  split; [reflexivity|]. split; [exact Hbad|]. split; [reflexivity|].
  exact (prompt_url_first_valid quiet_env ["nonsense"; ""] ["/tmp/x"] "youtu.be/x"
           "https://youtu.be/x"
           (world_with Absent ["nonsense"; ""; "youtu.be/x"; "/tmp/x"])
           eq_refl Hbad eq_refl).
Defined.

Lemma main_prompt_end_of_input_witness :
  args_interactive args_none || negb (opt_truthy (args_url args_none)) = true /\
  Forall (invalid_line quiet_env) (stdin (world_with Absent ["nonsense"])) /\
  main quiet_env args_none (world_with Absent ["nonsense"])
  = (Raise EOF_error,
     {| config_file := Absent;
        stdout := ([] ++ prompt_header ++ reprompts ["nonsense"]
                     ++ ["Video URL: "])%list;
        stderr := []; stdin := [] |}).
Proof.
  assert (Hbad : Forall (invalid_line quiet_env) (stdin (world_with Absent ["nonsense"])))
    by (constructor; [reflexivity | constructor]).
  split; [reflexivity|]. split; [exact Hbad|].
  exact (main_prompt_end_of_input quiet_env args_none (world_with Absent ["nonsense"])
           eq_refl Hbad).
Defined.


Lemma interactive_prompt_defaults_witness :
  stdin (world_with Absent ["youtu.be/x"; ""; ""]) = "youtu.be/x" :: "" :: "" :: [] /\
  normalize_url quiet_env (strip "youtu.be/x") = Ok (Some "https://youtu.be/x") /\
  fst (_interactive_prompt quiet_env (PDict themed_record)
         (world_with Absent ["youtu.be/x"; ""; ""]))
  = Ok (Some ("https://youtu.be/x", PStr "/home/user/Downloads", "480p")).
Proof.
  split; [reflexivity|]. split; [reflexivity|].
  rewrite (interactive_prompt_defaults quiet_env themed_record
             (world_with Absent ["youtu.be/x"; ""; ""])
             "youtu.be/x" "" "" "480p" "https://youtu.be/x" []
             eq_refl eq_refl eq_refl eq_refl).
  reflexivity.
Defined.

Lemma invalid_url_exit_2_witness :
  args_interactive args_bad_url || negb (opt_truthy (args_url args_bad_url)) = false /\
  normalize_url quiet_env (default "" (args_url args_bad_url)) = Ok None /\
  main quiet_env args_bad_url (world_with Absent [])
  = (Ok 2,
     {| config_file := Absent; stdout := [];
        stderr :=
          ([] ++ [("Error: invalid URL. Provide a URL starting with http(s) or run with --interactive."
                     ++ NL)%string])%list;
        stdin := [] |}).
Proof.
  split; [reflexivity|]. split; [reflexivity|].
  exact (invalid_url_exit_2 quiet_env args_bad_url (world_with Absent [])
           eq_refl eq_refl).
Defined.

Lemma unusable_directory_exit_2_witness :
  args_interactive args_all_flags || negb (opt_truthy (args_url args_all_flags)) = false /\
  py_makedirs (read_only quiet_env) (resolved_out_dir (read_only quiet_env) args_all_flags ∅)
  = Raise permission_denied /\
  main (read_only quiet_env) args_all_flags (world_with Absent [])
  = (Ok 2,
     {| config_file := Absent; stdout := [];
        stderr := ([] ++ [(("Error: invalid output directory: "
                              ++ exn_msg permission_denied) ++ NL)%string])%list;
        stdin := [] |}).
Proof.
  split; [reflexivity|]. split; [reflexivity|].
  exact (unusable_directory_exit_2 (read_only quiet_env) args_all_flags
           (world_with Absent []) ∅ "https://youtu.be/x" permission_denied
           eq_refl eq_refl eq_refl eq_refl).
Defined.

Lemma cli_run_succeeds_witness :
  resolved_out_dir busy_env args_all_flags themed_record = PStr "/tmp/x" /\
  resolved_quality args_all_flags themed_record = PStr "720p" /\
  snd (engine busy_env (download_opts busy_env args_all_flags "/tmp/x" "720p")
         "https://youtu.be/x") = Ok tt /\
  main busy_env args_all_flags
    (world_with (Holds (FileJson (PDict themed_record))) [])
  = (Ok 0,
     {| config_file :=
          file_after_save busy_env
            (PDict (updated_record themed_record "/tmp/x" "720p"))
            (Holds (FileJson (PDict themed_record)));
        stdout := ([] ++ announcement "/tmp/x" "720p"
                     ++ rendering busy_env args_all_flags "https://youtu.be/x"
                          "/tmp/x" "720p"
                     ++ completion busy_env args_all_flags "https://youtu.be/x"
                          "/tmp/x" "720p")%list;
        stderr := []; stdin := [] |}).
Proof.
  split; [reflexivity|]. split; [reflexivity|]. split; [reflexivity|].
  exact (cli_run_succeeds busy_env args_all_flags
           (world_with (Holds (FileJson (PDict themed_record))) [])
           themed_record "https://youtu.be/x" "/tmp/x" "720p"
           eq_refl eq_refl eq_refl eq_refl eq_refl eq_refl eq_refl).
Defined.


Lemma persisted_quality_not_a_string_witness :
  numeric_quality_record !! "quality" = Some (PInt 720) /\
  (forall s, PInt 720 <> PStr s) /\
  main busy_env args_url_only
    (world_with (Holds (FileJson (PDict numeric_quality_record))) [])
  = (Raise (no_attribute (PInt 720) "lower"),
     world_with (Holds (FileJson (PDict numeric_quality_record))) []).
Proof.
  split; [reflexivity|]. split; [intros s; discriminate|].
  apply (persisted_quality_not_a_string busy_env args_url_only
           (world_with (Holds (FileJson (PDict numeric_quality_record))) [])
           numeric_quality_record "https://youtu.be/x" (PInt 720));
    [reflexivity | reflexivity | reflexivity | reflexivity | reflexivity
    | intros s; discriminate | reflexivity].
Defined.


Lemma prompt_run_invalid_directory_witness :
  args_interactive args_none || negb (opt_truthy (args_url args_none)) = true /\
  normalize_url (read_only quiet_env) (strip "youtu.be/x")
  = Ok (Some "https://youtu.be/x") /\
  py_makedirs (read_only quiet_env) (PStr "/tmp/x") = Raise permission_denied /\
  main (read_only quiet_env) args_none
    (world_with Absent ["youtu.be/x"; "/tmp/x"; "720"])
  = (Ok 2,
     {| config_file := Absent;
        stdout :=
          (prompt_header
             ++ ["Video URL: ";
                 "Download directory [/home/user/Downloads]: ";
                 ("Invalid directory '/tmp/x': [Errno 13] Permission denied"
                    ++ NL)%string])%list;
        stderr := []; stdin := ["720"] |}).
Proof.
  split; [reflexivity|]. split; [reflexivity|]. split; [reflexivity|].
  exact (prompt_run_invalid_directory (read_only quiet_env) args_none
           (world_with Absent ["youtu.be/x"; "/tmp/x"; "720"]) ∅
           "youtu.be/x" "/tmp/x" "https://youtu.be/x" ["720"] permission_denied
           eq_refl eq_refl eq_refl eq_refl eq_refl).
Defined.

Lemma prompt_run_succeeds_witness :
  args_interactive args_interactive_url
    || negb (opt_truthy (args_url args_interactive_url)) = true /\
  normalize_url busy_env (strip "youtu.be/x") = Ok (Some "https://youtu.be/x") /\
  coerce_quality (lower "720") = "720p" /\
  fst (main busy_env args_interactive_url
         (world_with (Holds (FileJson (PDict themed_record)))
            ["youtu.be/x"; "/tmp/x"; "720"])) = Ok 0 /\
  config_file
    (snd (main busy_env args_interactive_url
            (world_with (Holds (FileJson (PDict themed_record)))
               ["youtu.be/x"; "/tmp/x"; "720"])))
  = Holds (FileJson (PDict (updated_record themed_record "/tmp/x" "720p"))) /\
  stdin
    (snd (main busy_env args_interactive_url
            (world_with (Holds (FileJson (PDict themed_record)))
               ["youtu.be/x"; "/tmp/x"; "720"]))) = [].
Proof.
  split; [reflexivity|]. split; [reflexivity|]. split; [reflexivity|].
  rewrite (prompt_run_succeeds busy_env args_interactive_url
             (world_with (Holds (FileJson (PDict themed_record)))
                ["youtu.be/x"; "/tmp/x"; "720"])
             themed_record "youtu.be/x" "/tmp/x" "720" "720" "https://youtu.be/x"
             "/tmp/x" [] eq_refl eq_refl eq_refl eq_refl eq_refl eq_refl eq_refl
             eq_refl).
  repeat split.
Defined.
